(** * Certificate video generator: the [POST /generate] handler

    A shallow embedding of [api/index.js] (and of its second copy, which
    differs in logging and in the text of the render error) together with
    the properties of the handler, of the name sanitization and of the
    filter-graph construction.

    Strings.  A JavaScript string is modelled by [string]; the development
    covers ASCII text: [toUpperCase] is the ASCII case mapping and [trim]
    strips the ASCII members of the WhiteSpace and LineTerminator classes
    (TAB, LF, VT, FF, CR, SP).  Characters above 127 are carried through
    unchanged. *)

From Stdlib Require Import String Ascii List Bool ZArith NArith Lia.
From Stdlib Require Import DecimalString.
Import ListNotations.
Local Open Scope Z_scope.
Local Open Scope string_scope.

(* ================================================================== *)
(** ** String primitives of the host language *)
(* ================================================================== *)

Module Js.

(** The character U+0022. *)
Definition dquote : ascii := "034"%char.
Definition squote : ascii := "'"%char.
Definition colon : ascii := ":"%char.
Definition backslash : ascii := "\"%char.
Definition slash : ascii := "/"%char.

Definition is_lower (c : ascii) : bool :=
  (N.leb 97 (N_of_ascii c) && N.leb (N_of_ascii c) 122)%bool.

Definition upper_char (c : ascii) : ascii :=
  if is_lower c then ascii_of_N (N_of_ascii c - 32) else c.

(** [String.prototype.toUpperCase] on ASCII text, where it maps character
    by character.  (On other text the host maps some characters to several,
    so that the result can be longer; that text is not covered.) *)
Fixpoint toUpperCase (s : string) : string :=
  match s with
  | EmptyString => EmptyString
  | String c r => String (upper_char c) (toUpperCase r)
  end.

Definition is_ws (c : ascii) : bool :=
  let n := N_of_ascii c in
  (N.leb 9 n && N.leb n 13 || N.eqb n 32)%bool.

Fixpoint trimStart (s : string) : string :=
  match s with
  | EmptyString => EmptyString
  | String c r => if is_ws c then trimStart r else s
  end.

Fixpoint trimEnd (s : string) : string :=
  match s with
  | EmptyString => EmptyString
  | String c r =>
      match trimEnd r with
      | EmptyString => if is_ws c then EmptyString else String c EmptyString
      | r' => String c r'
      end
  end.

(** [String.prototype.trim] on ASCII text: the white space and line
    terminators below 128 are TAB, LF, VT, FF, CR and SP. *)
Definition trim (s : string) : string := trimEnd (trimStart s).

(** [s.replace(/[...]/g, '')] for a character class [p]. *)
Fixpoint remove_all (p : ascii -> bool) (s : string) : string :=
  match s with
  | EmptyString => EmptyString
  | String c r => if p c then remove_all p r else String c (remove_all p r)
  end.

(** [s.replace(/c/g, by)] for a single character [c]. *)
Fixpoint replace_all (c : ascii) (by_ : string) (s : string) : string :=
  match s with
  | EmptyString => EmptyString
  | String d r =>
      if Ascii.eqb d c then by_ ++ replace_all c by_ r
      else String d (replace_all c by_ r)
  end.

(** Truthiness of a string: only the empty string is falsy. *)
Definition truthy (s : string) : bool :=
  match s with EmptyString => false | _ => true end.

(** [a || b] on strings. *)
Definition or_else (a b : string) : string := if truthy a then a else b.

(** [a || b] where [a] may be [undefined]. *)
Definition opt_or_else (a : option string) (b : string) : string :=
  match a with
  | Some s => or_else s b
  | None => b
  end.

(** Template interpolation of a non-negative integer. *)
Definition show (n : Z) : string :=
  NilEmpty.string_of_uint (N.to_uint (Z.to_N n)).

(** Every character of [s] satisfies [p]. *)
Fixpoint all_chars (p : ascii -> bool) (s : string) : bool :=
  match s with
  | EmptyString => true
  | String c r => (p c && all_chars p r)%bool
  end.

(** A string that is empty or begins with a character that is not white
    space. *)
Definition starts_clean (s : string) : bool :=
  match s with
  | EmptyString => true
  | String c _ => negb (is_ws c)
  end.

Definition is_ascii (c : ascii) : bool := N.ltb (N_of_ascii c) 128.

Definition is_upper (c : ascii) : bool :=
  (N.leb 65 (N_of_ascii c) && N.leb (N_of_ascii c) 90)%bool.

Definition lower_char (c : ascii) : ascii :=
  if is_upper c then ascii_of_N (N_of_ascii c + 32) else c.

(** [String.prototype.toLowerCase] on ASCII text (header names are). *)
Fixpoint toLowerCase (s : string) : string :=
  match s with
  | EmptyString => EmptyString
  | String c r => String (lower_char c) (toLowerCase r)
  end.

End Js.

(* ================================================================== *)
(** ** Name sanitization *)
(* ================================================================== *)

Definition colon_or_dquote (c : ascii) : bool :=
  (Ascii.eqb c Js.colon || Ascii.eqb c Js.dquote)%bool.

(** [sanitizeForDrawText]: the guard on a falsy argument, then the global
    replacement of the class of colon and double quote by the empty
    string. *)
Definition sanitizeForDrawText (s : string) : string :=
  if negb (Js.truthy s) then "" else Js.remove_all colon_or_dquote s.

(** The handler's [name]:
    [sanitizeForDrawText(nameRaw.toUpperCase().trim())]. *)
Definition sanitize (nameRaw : string) : string :=
  sanitizeForDrawText (Js.trim (Js.toUpperCase nameRaw)).


(* ================================================================== *)
(** ** Deployment constants and paths *)
(* ================================================================== *)

(** The module-level paths.  [uploadsDir] and [tmpDirRoot] are
    [path.join(RUNTIME_TMP, ...)], [TEMPLATE_VIDEO] and [FONT_FILE] are
    [path.join(__dirname, '..', 'media', ...)]; they are fixed when the
    module is loaded and enter the handler as values.  [sep] is the
    platform's path separator. *)
Record config := {
  sep : string;
  uploadsDir : string;
  tmpDirRoot : string;
  TEMPLATE_VIDEO : string;
  FONT_FILE : string
}.

(** [path.join(dir, leaf)] for a normalized [dir] and a plain segment:
    there is then nothing to normalize and the result is the two joined by
    the separator. *)
Definition path_join (cfg : config) (dir leaf : string) : string :=
  dir ++ sep cfg ++ leaf.

Definition CANVAS_W : Z := 1240.
Definition CANVAS_H : Z := 1748.

(* ================================================================== *)
(** ** The disk *)
(* ================================================================== *)

(** The file system as the list of the paths that exist. *)
Definition disk := list string.

Module Fs.

Definition pathExists (p : string) (d : disk) : bool :=
  existsb (String.eqb p) d.

(** [p] is [dir] itself or lies below it. *)
Definition inside (cfg : config) (dir p : string) : bool :=
  (String.eqb p dir || String.prefix (dir ++ sep cfg) p)%bool.

(** [fs.remove]: deletes the whole tree; no error when nothing is there. *)
Definition remove (cfg : config) (dir : string) (d : disk) : disk :=
  filter (fun p => negb (inside cfg dir p)) d.

(** A path comes into existence ([ensureDir], or a file being written). *)
Definition create (p : string) (d : disk) : disk :=
  if pathExists p d then d else p :: d.

End Fs.

(* ================================================================== *)
(** ** Requests, responses, external tools *)
(* ================================================================== *)

(** [req.file] as multer's disk storage leaves it: the path the upload was
    written to under [uploadsDir], and its content. *)
Record upload := {
  up_path : string;
  up_bytes : list Byte.byte
}.

(** What the body parsers leave under a field name.  A form gives a text;
    an array, when the field was sent several times or with brackets; or an
    object with keys, when the field was sent with a key ([name[a]=x]): in
    a multipart form that object has no prototype, hence no [toString].  A
    JSON body also gives [null] and values of the other types (numbers,
    booleans, objects with a prototype): such a value is given by the text
    its conversion yields and by its truthiness. *)
#[warnings="-register-all"]
Inductive body_value :=
| Text (s : string)
| Items (items : list body_value)
| Keyed
| Null
| Other (text : string) (truthy : bool).

(** The part of a request the handler reads: [req.body.name] (absent when
    the field was not sent) and [req.file]. *)
Record submission := {
  name_field : option body_value;
  attachment : option upload
}.

(** The requests whose [name] field is absent or a text. *)
Record request := {
  body_name : option string;
  file : option upload
}.

Definition of_text (req : request) : submission :=
  {| name_field := option_map Text (body_name req);
     attachment := file req |}.

Inductive response :=
| Json (status : Z) (error : string)        (* res.status(n).json({ error }) *)
| Download (path filename : string).        (* res.download(path, filename, cb) *)

Definition status_of (r : response) : Z :=
  match r with
  | Json n _ => n
  | Download _ _ => 200
  end.

(** The two vector shapes handed to the compositor: an [svg] element of the
    given size holding one [circle]. *)
Record svg := {
  svg_width : Z;
  svg_height : Z;
  circle_cx : Z;
  circle_cy : Z;
  circle_r : Z;
  circle_fill : string;
  circle_stroke : option string;
  circle_stroke_width : option Z
}.

Inductive fit := Cover | Contain | Fill | Inside | Outside.
Inductive blend := DestIn | Over.
Inductive image_format := Png | Jpeg | Webp.

(** The [sharp] pipeline as it is built, up to [toFile]. *)
Record sharp_job := {
  sharp_input : list Byte.byte;
  resize_width : Z;
  resize_height : Z;
  resize_fit : fit;
  composite : list (svg * blend);
  output_format : image_format;
  toFile : string
}.

(** The [fluent-ffmpeg] command as it is built, up to [save]. *)
Record ffmpeg_job := {
  inputs : list string;
  complexFilter : string;
  outputOptions : list string;
  save : string
}.

(** A vector stroke is centred on the outline it follows: half of its
    width lies inside the circle of radius [circle_r] and half outside. *)
Definition stroke_inner_radius (s : svg) : Z :=
  match circle_stroke_width s with
  | Some w => circle_r s - w / 2
  | None => circle_r s
  end.

Definition stroke_outer_radius (s : svg) : Z :=
  match circle_stroke_width s with
  | Some w => circle_r s + w / 2
  | None => circle_r s
  end.

Inductive outcome := Done | Fails (message : string).

(** How a render ended: the [end] event, or the [error] event with the
    error's message and the captured diagnostic output (which may be
    undefined).  [ff_lines] are the lines of the [stderr] events. *)
Inductive ffmpeg_exit :=
| FfEnd
| FfError (err_message : string) (stderr : option string).

Record ffmpeg_result := {
  ff_lines : list string;
  ff_exit : ffmpeg_exit
}.

(** What one request meets outside the handler: the identifier drawn by
    [uuidv4()], and how each external operation turns out. *)
Record world := {
  uuid : string;
  fs_copy : outcome;
  fs_readFile : outcome;
  sharp_decode : list Byte.byte -> outcome;
  sharp_write : outcome;
  ffmpeg_run : ffmpeg_job -> ffmpeg_result;
  download_error : option string
}.

(** The same, together with what can go wrong before the pipeline: the
    creation of the workspace, and the conversion of the name field to
    text, for which [type_error] is the message of the [TypeError] the
    engine raises. *)
Record environment := {
  outside : world;
  fs_ensureDir : outcome;
  type_error : string
}.

(** The environment in which the workspace can be created. *)
Definition calm (w : world) : environment :=
  {| outside := w; fs_ensureDir := Done; type_error := "" |}.

(* ================================================================== *)
(** ** Effects *)
(* ================================================================== *)

Inductive level := LogLevel | WarnLevel | ErrorLevel.

(** What the handler does to the outside, in order.  An [Error] object
    passed to the console is represented by its message. *)
Inductive event :=
| EnsureDir (p : string)
| Remove (p : string)
| PathExists (p : string)
| Copy (src dst : string)
| ReadFile (p : string)
| Sharp (job : sharp_job)
| Ffmpeg (job : ffmpeg_job)
| SendFile (p filename : string)
| Console (l : level) (args : list string).

Record state := {
  fs : disk;
  events : list event
}.

Inductive result (A : Type) :=
| Ok (a : A)
| Thrown (message : string).
Arguments Ok {A} a.
Arguments Thrown {A} message.

(** Computations over the state that may throw. *)
Definition M (A : Type) : Type := state -> result A * state.

Definition ret {A} (a : A) : M A := fun st => (Ok a, st).

Definition throw {A} (message : string) : M A := fun st => (Thrown message, st).

Definition bind {A B} (m : M A) (k : A -> M B) : M B :=
  fun st =>
    match m st with
    | (Ok a, st') => k a st'
    | (Thrown e, st') => (Thrown e, st')
    end.

Definition try_catch {A} (body : M A) (handler : string -> M A) : M A :=
  fun st =>
    match body st with
    | (Ok a, st') => (Ok a, st')
    | (Thrown e, st') => handler e st'
    end.

Declare Scope js_scope.
Delimit Scope js_scope with js.
Notation "x <- m ;; k" := (bind m (fun x => k))
  (at level 61, m at next level, right associativity) : js_scope.
Notation "m ;; k" := (bind m (fun _ => k))
  (at level 61, right associativity) : js_scope.
Local Open Scope js_scope.

Definition emit (e : event) : M unit :=
  fun st => (Ok tt, {| fs := fs st; events := events st ++ [e] |}).

Definition on_disk (f : disk -> disk) : M unit :=
  fun st => (Ok tt, {| fs := f (fs st); events := events st |}).

Definition console (l : level) (args : list string) : M unit :=
  emit (Console l args).

(** [await fs.remove(p)]. *)
Definition remove (cfg : config) (p : string) : M unit :=
  emit (Remove p) ;; on_disk (Fs.remove cfg p).

(** [await fs.pathExists(p)]. *)
Definition pathExists (p : string) : M bool :=
  emit (PathExists p) ;; fun st => (Ok (Fs.pathExists p (fs st)), st).

(** An external operation that writes [target] when it succeeds and throws
    otherwise. *)
Definition writes (o : outcome) (target : string) : M unit :=
  match o with
  | Done => on_disk (Fs.create target)
  | Fails message => throw message
  end.

(** [await fs.ensureDir(p)], which may fail.  Its parent exists (the
    module creates [tmpDirRoot] when it is loaded), so that one path comes
    into existence.  Removing a tree is taken not to fail; creating,
    copying, reading, compositing and rendering may. *)
Definition ensureDir (o : outcome) (p : string) : M unit :=
  emit (EnsureDir p) ;; writes o p.

(** [await fs.copy(src, dst)]. *)
Definition copy (w : world) (src dst : string) : M unit :=
  emit (Copy src dst) ;; writes (fs_copy w) dst.

(** [await fs.readFile(uploadedPath)]. *)
Definition readFile (w : world) (f : upload) : M (list Byte.byte) :=
  emit (ReadFile (up_path f)) ;;
  match fs_readFile w with
  | Done => ret (up_bytes f)
  | Fails message => throw message
  end.

(** [await sharp(...)...toFile(...)]: the input is decoded, the pipeline
    runs, the result is written. *)
Definition sharp (w : world) (job : sharp_job) : M unit :=
  emit (Sharp job) ;;
  match sharp_decode w (sharp_input job) with
  | Done => writes (sharp_write w) (toFile job)
  | Fails message => throw message
  end.

(* ================================================================== *)
(** ** The two copies of the handler *)
(* ================================================================== *)

(** [Plain] is [api/index.js]; [Verbose] is the copy that logs each step
    and passes the bare diagnostic text in the render error.  Response
    headers (CORS) are not part of the model. *)
Inductive revision := Plain | Verbose.

Definition verbose (rev : revision) : bool :=
  match rev with Plain => false | Verbose => true end.

(** A console call made by the [Verbose] copy only. *)
Definition console_v (rev : revision) (l : level) (args : list string) : M unit :=
  if verbose rev then console l args else ret tt.

(* ================================================================== *)
(** ** Image compositor *)
(* ================================================================== *)

(** [circleSvg]: the filled disc used as alpha mask. *)
Definition circleSvg (targetSize : Z) : svg :=
  {| svg_width := targetSize;
     svg_height := targetSize;
     circle_cx := targetSize / 2;
     circle_cy := targetSize / 2;
     circle_r := targetSize / 2;
     circle_fill := "#fff";
     circle_stroke := None;
     circle_stroke_width := None |}.

(** [borderSvg]: the decorative ring. *)
Definition borderSvg (targetSize : Z) : svg :=
  {| svg_width := targetSize;
     svg_height := targetSize;
     circle_cx := targetSize / 2;
     circle_cy := targetSize / 2;
     circle_r := targetSize / 2 - 5;
     circle_fill := "none";
     circle_stroke := Some "#ff9933";
     circle_stroke_width := Some 10 |}.

(** The pipeline [sharp(inputBuffer).resize(...).composite(...).png()
    .toFile(overlayPng)]. *)
Definition overlay_job (inputBuffer : list Byte.byte) (targetSize : Z)
    (overlayPng : string) : sharp_job :=
  {| sharp_input := inputBuffer;
     resize_width := targetSize;
     resize_height := targetSize;
     resize_fit := Cover;
     composite := [ (circleSvg targetSize, DestIn);
                    (borderSvg targetSize, Over) ];
     output_format := Png;
     toFile := overlayPng |}.

(* ================================================================== *)
(** ** What the compositor computes *)
(* ================================================================== *)

(** A pixel: transparent, a pixel of the photo, or paint of a colour. *)
Inductive pixel :=
| Clear
| Photo
| Paint (colour : string).

(** A picture: its size, whether it carries an alpha channel, and its
    pixels; [pic_at i j] is the pixel of column [i] and row [j]. *)
Record picture := {
  pic_width : Z;
  pic_height : Z;
  pic_alpha : bool;
  pic_at : Z -> Z -> pixel
}.

Definition sq (a : Z) : Z := a * a.

(** Four times the squared distance between the centre of the circle of
    [s] and the centre of the pixel [(i, j)], which is the point
    [(i + 1/2, j + 1/2)]. *)
Definition spread (s : svg) (i j : Z) : Z :=
  sq (2 * i + 1 - 2 * circle_cx s) + sq (2 * j + 1 - 2 * circle_cy s).

Definition in_view (s : svg) (i j : Z) : bool :=
  (Z.leb 0 i && Z.ltb i (svg_width s) && Z.leb 0 j && Z.ltb j (svg_height s))%bool.

(** The centre of the pixel lies in the filled disc. *)
Definition filled (s : svg) (i j : Z) : bool :=
  (negb (String.eqb (circle_fill s) "none")
   && Z.leb (spread s i j) (sq (2 * circle_r s)))%bool.

(** The centre of the pixel lies in the stroke, which reaches half of its
    width to either side of the outline. *)
Definition stroked (s : svg) (i j : Z) : bool :=
  match circle_stroke s, circle_stroke_width s with
  | Some _, Some w =>
      (Z.leb (sq (Z.max 0 (2 * circle_r s - w))) (spread s i j)
       && Z.leb (spread s i j) (sq (2 * circle_r s + w)))%bool
  | _, _ => false
  end.

(** The colour a shape gives to a pixel, the stroke lying over the fill.
    The smoothing of the edge is not modelled. *)
Definition svg_at (s : svg) (i j : Z) : option string :=
  if in_view s i j then
    if stroked s i j then circle_stroke s
    else if filled s i j then Some (circle_fill s)
    else None
  else None.

(** One layer composited onto a picture.  [dest-in] keeps the picture
    where the layer is painted and clears it elsewhere; [over] paints the
    layer onto the picture. *)
Definition blend_pixel (b : blend) (below : pixel) (layer : option string)
    : pixel :=
  match b, layer with
  | DestIn, Some _ => below
  | DestIn, None => Clear
  | Over, Some colour => Paint colour
  | Over, None => below
  end.

(** [.composite(layers)]: the layers in turn; the result carries an alpha
    channel as soon as there is a layer. *)
Definition composited (base : picture) (layers : list (svg * blend)) : picture :=
  {| pic_width := pic_width base;
     pic_height := pic_height base;
     pic_alpha := match layers with [] => pic_alpha base | _ => true end;
     pic_at := fun i j =>
       fold_left (fun below layer => blend_pixel (snd layer) below
                                       (svg_at (fst layer) i j))
                 layers (pic_at base i j) |}.

(** [.resize({ width, height, fit: 'cover' })]: the photo fills the box,
    what overflows is cut off.  [alpha] tells whether the photo carries an
    alpha channel and [shows] where, once resized, it is not transparent. *)
Definition cover (width height : Z) (alpha : bool) (shows : Z -> Z -> bool)
    : picture :=
  {| pic_width := width;
     pic_height := height;
     pic_alpha := alpha;
     pic_at := fun i j =>
       if (Z.leb 0 i && Z.ltb i width && Z.leb 0 j && Z.ltb j height
           && shows i j)%bool
       then Photo else Clear |}.

(** [.png()] and the like: PNG and WebP keep the alpha channel, JPEG has
    none and what was transparent becomes black. *)
Definition encoded (format : image_format) (p : picture) : picture :=
  match format with
  | Png | Webp => p
  | Jpeg =>
      {| pic_width := pic_width p;
         pic_height := pic_height p;
         pic_alpha := false;
         pic_at := fun i j =>
           match pic_at p i j with
           | Clear => Paint "#000000"
           | other => other
           end |}
  end.

(** The picture a job writes, for a photo that can be decoded.  Only the
    cover fit is modelled. *)
Definition rendered (job : sharp_job) (alpha : bool) (shows : Z -> Z -> bool)
    : option picture :=
  match resize_fit job with
  | Cover =>
      Some (encoded (output_format job)
              (composited (cover (resize_width job) (resize_height job)
                             alpha shows)
                          (composite job)))
  | _ => None
  end.

(* ================================================================== *)
(** ** Placement planner and filter graph *)
(* ================================================================== *)

Definition overlayX : Z := 620 - 300.
Definition overlayY : Z := 425 - 300.

Definition fontPathForFF (fontCopyPath : string) : string :=
  Js.replace_all Js.backslash "/" fontCopyPath.

Definition fontPathEscapedForFilter (fontCopyPath : string) : string :=
  Js.replace_all Js.squote "\'"
    (Js.replace_all Js.colon "\:" (fontPathForFF fontCopyPath)).

Definition safeName (name : string) : string :=
  Js.replace_all Js.squote "\'" name.

Definition drawText (fontCopyPath name : string) : string :=
  "drawtext=fontfile='" ++ fontPathEscapedForFilter fontCopyPath
  ++ "':text='" ++ safeName name
  ++ "':fontcolor=#274245:fontsize=70:x=620-text_w/2:y=820".

Definition filterComplex (fontCopyPath name : string) : string :=
  ("[0:v]scale=" ++ Js.show CANVAS_W ++ ":" ++ Js.show CANVAS_H
     ++ ":force_original_aspect_ratio=decrease,")
  ++ ("pad=" ++ Js.show CANVAS_W ++ ":" ++ Js.show CANVAS_H
     ++ ":(ow-iw)/2:(oh-ih)/2:black,setsar=1[base];")
  ++ "[1:v]format=rgba[ovr];"
  ++ ("[base][ovr]overlay=" ++ Js.show overlayX ++ ":" ++ Js.show overlayY
     ++ ":format=auto[tmp];")
  ++ ("[tmp]" ++ drawText fontCopyPath name ++ ",format=yuv420p[v]").

(* ================================================================== *)
(** ** Video render *)
(* ================================================================== *)

Definition render_job (cfg : config) (overlayPng filter outputPath : string)
    : ffmpeg_job :=
  {| inputs := [TEMPLATE_VIDEO cfg; overlayPng];
     complexFilter := filter;
     outputOptions :=
       [ "-map"; "[v]";
         "-map"; "0:a?";
         "-c:v"; "libx264";
         "-crf"; "18";
         "-preset"; "veryfast";
         "-pix_fmt"; "yuv420p";
         "-c:a"; "aac";
         "-movflags"; "+faststart";
         "-shortest" ];
     save := outputPath |}.

(** The message of the [Error] the promise is rejected with. *)
Definition render_error_message (rev : revision) (err_message : string)
    (stderr : option string) : string :=
  match rev with
  | Plain => "ffmpeg error: " ++ Js.opt_or_else stderr err_message
  | Verbose => Js.or_else (Js.opt_or_else stderr err_message) "ffmpeg error"
  end.

(** The [stderr] listener of the [Verbose] copy. *)
Fixpoint log_lines (requestId : string) (lines : list string) : M unit :=
  match lines with
  | [] => ret tt
  | line :: rest =>
      (if (Js.truthy line && Js.truthy (Js.trim line))%bool
       then console LogLevel ["[ffmpeg " ++ requestId ++ "] " ++ line]
       else ret tt) ;;
      log_lines requestId rest
  end.

(** [await new Promise(...)] around the render. *)
Definition ffmpeg (rev : revision) (w : world) (requestId : string)
    (job : ffmpeg_job) : M unit :=
  emit (Ffmpeg job) ;;
  let res := ffmpeg_run w job in
  (if verbose rev then log_lines requestId (ff_lines res) else ret tt) ;;
  match ff_exit res with
  | FfEnd =>
      on_disk (Fs.create (save job)) ;;
      console_v rev LogLevel
        ["[" ++ requestId ++ "] ffmpeg finished -> " ++ save job]
  | FfError err_message stderr =>
      console_v rev ErrorLevel
        ["[" ++ requestId ++ "] ffmpeg error:"; err_message] ;;
      throw (render_error_message rev err_message stderr)
  end.

(* ================================================================== *)
(** ** Request orchestrator: [POST /generate] *)
(* ================================================================== *)

(** The callback of [res.download]: runs when the transfer has finished
    or failed. *)
Definition download_callback (rev : revision) (cfg : config) (w : world)
    (requestId workDir uploadedPath : string) : M unit :=
  match rev with
  | Plain =>
      remove cfg workDir ;;
      remove cfg uploadedPath
  | Verbose =>
      remove cfg workDir ;;
      (present <- pathExists uploadedPath ;;
       if (present : bool) then remove cfg uploadedPath else ret tt) ;;
      match download_error w with
      | Some e => console ErrorLevel ["[" ++ requestId ++ "] download error"; e]
      | None => console LogLevel ["[" ++ requestId ++ "] download served"]
      end
  end.

(** [res.download(outputPath, 'My_Certificate.mp4', callback)]. *)
Definition download (rev : revision) (cfg : config) (w : world)
    (requestId workDir uploadedPath outputPath : string) : M response :=
  emit (SendFile outputPath "My_Certificate.mp4") ;;
  download_callback rev cfg w requestId workDir uploadedPath ;;
  ret (Download outputPath "My_Certificate.mp4").

(** Truthiness of a field value: the empty text and [null] are falsy,
    arrays and objects are truthy. *)
Definition truthy_value (v : body_value) : bool :=
  match v with
  | Text s => Js.truthy s
  | Items _ | Keyed => true
  | Null => false
  | Other _ truthy => truthy
  end.

(** [v.toString()].  A text is itself; an array joins the texts of its
    items with commas, [null] counting for the empty text; an object
    without prototype has no such method, and an array that holds one
    cannot convert it: both throw a [TypeError] ([None]).  [null] itself is
    falsy and never reaches the call. *)
Fixpoint toString (v : body_value) : option string :=
  match v with
  | Text s => Some s
  | Keyed => None
  | Null => Some EmptyString
  | Other text _ => Some text
  | Items items =>
      (fix join (l : list body_value) : option string :=
         match l with
         | [] => Some EmptyString
         | [x] => toString x
         | x :: rest =>
             match toString x, join rest with
             | Some a, Some b => Some (a ++ "," ++ b)
             | _, _ => None
             end
         end) items
  end.

(** [(req.body.name || '').toString()], when it does not throw. *)
Definition name_text (field : option body_value) : option string :=
  match field with
  | None => Some EmptyString
  | Some v => if truthy_value v then toString v else Some EmptyString
  end.

(** The same as a step of the handler. *)
Definition nameRaw_of (env : environment) (field : option body_value)
    : M string :=
  match name_text field with
  | Some s => ret s
  | None => throw (type_error env)
  end.

(** The body of the [try] block. *)
Definition try_block (rev : revision) (cfg : config) (env : environment)
    (sub : submission) (requestId workDir : string) : M response :=
  let w := outside env in
  nameRaw <- nameRaw_of env (name_field sub) ;;
  let name := sanitize nameRaw in
  match attachment sub with
  | None =>
      remove cfg workDir ;;
      console_v rev LogLevel ["[" ++ requestId ++ "] missing photo"] ;;
      ret (Json 400 "Photo is required (field name: photo)")
  | Some req_file =>
  if negb (Js.truthy name) then
      remove cfg workDir ;;
      console_v rev LogLevel ["[" ++ requestId ++ "] missing name"] ;;
      ret (Json 400 "Name is required")
  else
  template <- pathExists (TEMPLATE_VIDEO cfg) ;;
  if negb template then
      remove cfg workDir ;;
      console_v rev ErrorLevel
        ["[" ++ requestId ++ "] Template video missing at " ++ TEMPLATE_VIDEO cfg] ;;
      ret (Json 500 "Template video missing on server")
  else
  font <- pathExists (FONT_FILE cfg) ;;
  if negb font then
      remove cfg workDir ;;
      console_v rev ErrorLevel
        ["[" ++ requestId ++ "] Font file missing at " ++ FONT_FILE cfg] ;;
      ret (Json 500 "Font file missing on server")
  else
  let uploadedPath := up_path req_file in
  let fontCopyPath := path_join cfg workDir "Montserrat-Bold.ttf" in
  copy w (FONT_FILE cfg) fontCopyPath ;;
  let targetSize := 600 in
  let overlayPng := path_join cfg workDir "overlay_600.png" in
  inputBuffer <- readFile w req_file ;;
  sharp w (overlay_job inputBuffer targetSize overlayPng) ;;
  let outputPath := path_join cfg workDir "output.mp4" in
  ffmpeg rev w requestId
    (render_job cfg overlayPng (filterComplex fontCopyPath name) outputPath) ;;
  download rev cfg w requestId workDir uploadedPath outputPath
  end.

(** The [catch] block; [message] is [err.message]. *)
Definition catch_block (cfg : config) (workDir : string) (message : string)
    : M response :=
  console ErrorLevel ["generate error"; message] ;;
  remove cfg workDir ;;
  ret (Json 500 (Js.or_else message "Server error")).

(** The handler.  The workspace is created before the [try] block is
    entered: when that fails, what is thrown is not caught. *)
Definition handler (rev : revision) (cfg : config) (env : environment)
    (sub : submission) : M response :=
  let requestId := uuid (outside env) in
  console_v rev LogLevel ["[" ++ requestId ++ "] POST /generate start"] ;;
  let workDir := path_join cfg (tmpDirRoot cfg) requestId in
  ensureDir (fs_ensureDir env) workDir ;;
  try_catch (try_block rev cfg env sub requestId workDir)
            (catch_block cfg workDir).

(** The handler on a request whose name is absent or a text, where the
    workspace can be created. *)
Definition generate (rev : revision) (cfg : config) (w : world)
    (req : request) : M response :=
  handler rev cfg (calm w) (of_text req).

(** The state a request starts from. *)
Definition initial (d : disk) : state := {| fs := d; events := [] |}.

(** Running the handler: the response sent, if any, and the state left
    behind.  When what is thrown escapes the handler no response is
    sent. *)
Definition serve (rev : revision) (cfg : config) (env : environment)
    (sub : submission) (d : disk) : option response * state :=
  match handler rev cfg env sub (initial d) with
  | (Ok r, st) => (Some r, st)
  | (Thrown _, st) => (None, st)
  end.

Definition answer (rev : revision) (cfg : config) (env : environment)
    (sub : submission) (d : disk) : option response :=
  fst (serve rev cfg env sub d).

Definition disk_left (rev : revision) (cfg : config) (env : environment)
    (sub : submission) (d : disk) : disk :=
  fs (snd (serve rev cfg env sub d)).

Definition trace (rev : revision) (cfg : config) (env : environment)
    (sub : submission) (d : disk) : list event :=
  events (snd (serve rev cfg env sub d)).

(** The same for a request whose name is absent or a text, where the
    workspace can be created. *)
Definition run (rev : revision) (cfg : config) (w : world) (req : request)
    (d : disk) : option response * state :=
  match generate rev cfg w req (initial d) with
  | (Ok r, st) => (Some r, st)
  | (Thrown _, st) => (None, st)
  end.

Definition response_of (rev : revision) (cfg : config) (w : world)
    (req : request) (d : disk) : option response :=
  fst (run rev cfg w req d).

Definition disk_after (rev : revision) (cfg : config) (w : world)
    (req : request) (d : disk) : disk :=
  fs (snd (run rev cfg w req d)).

Definition events_of (rev : revision) (cfg : config) (w : world)
    (req : request) (d : disk) : list event :=
  events (snd (run rev cfg w req d)).

(** The workspace of the request. *)
Definition workDir_of (cfg : config) (w : world) : string :=
  path_join cfg (tmpDirRoot cfg) (uuid w).

(** The operations the validation is meant to precede. *)
Definition expensive (e : event) : bool :=
  match e with
  | Copy _ _ | Sharp _ | Ffmpeg _ => true
  | _ => false
  end.

(** No such operation was started. *)
Definition quiet (evs : list event) : Prop :=
  forallb (fun e => negb (expensive e)) evs = true.

(** The console lines the [stderr] listener prints for [lines]. *)
Definition line_events (requestId : string) (lines : list string) : list event :=
  map (fun line => Console LogLevel ["[ffmpeg " ++ requestId ++ "] " ++ line])
      (filter (fun line => (Js.truthy line && Js.truthy (Js.trim line))%bool) lines).

(** The render command the handler builds for a sanitized [name]. *)
Definition planned_render (cfg : config) (w : world) (name : string) : ffmpeg_job :=
  let workDir := workDir_of cfg w in
  render_job cfg
    (path_join cfg workDir "overlay_600.png")
    (filterComplex (path_join cfg workDir "Montserrat-Bold.ttf") name)
    (path_join cfg workDir "output.mp4").

(** [haystack.includes(needle)]. *)
Definition includes (needle haystack : string) : bool :=
  match String.index 0 needle haystack with
  | Some _ => true
  | None => false
  end.

(* ================================================================== *)
(** ** Reading a filter graph *)
(* ================================================================== *)

(** The render engine cuts a filter-graph description into stages at the
    commas and semicolons that are neither escaped by a backslash nor
    inside a single-quoted span.  Inside a quoted span the engine takes
    every character up to the next quote literally ([literal = true]); the
    other reading, under which a backslash inside a quoted span protects
    the character after it, is [literal = false]. *)
Inductive scan_mode := Bare | BareEscaped | Quoted | QuotedEscaped.

Definition is_separator (c : ascii) : bool :=
  (Ascii.eqb c ","%char || Ascii.eqb c ";"%char)%bool.

Fixpoint scan (literal : bool) (m : scan_mode) (cur s : string) : list string :=
  match s with
  | EmptyString => [cur]
  | String c r =>
      let cur' := cur ++ String c EmptyString in
      match m with
      | Bare =>
          if is_separator c then cur :: scan literal Bare EmptyString r
          else if Ascii.eqb c Js.backslash then scan literal BareEscaped cur' r
          else if Ascii.eqb c Js.squote then scan literal Quoted cur' r
          else scan literal Bare cur' r
      | BareEscaped => scan literal Bare cur' r
      | Quoted =>
          if Ascii.eqb c Js.squote then scan literal Bare cur' r
          else if (negb literal && Ascii.eqb c Js.backslash)%bool
               then scan literal QuotedEscaped cur' r
          else scan literal Quoted cur' r
      | QuotedEscaped => scan literal Quoted cur' r
      end
  end.

Definition stages (literal : bool) (graph : string) : list string :=
  scan literal Bare EmptyString graph.

(** Every occurrence of [c] in [s] comes right after a backslash
    ([after_backslash] tells whether the text before [s] ended in one). *)
Fixpoint guarded (c : ascii) (after_backslash : bool) (s : string) : bool :=
  match s with
  | EmptyString => true
  | String d r =>
      ((negb (Ascii.eqb d c) || after_backslash)
       && guarded c (Ascii.eqb d Js.backslash) r)%bool
  end.

(* ================================================================== *)
(** ** A concrete deployment *)
(* ================================================================== *)

Module Sample.

Definition cfg : config :=
  {| sep := "/";
     uploadsDir := "/tmp/uploads";
     tmpDirRoot := "/tmp/work";
     TEMPLATE_VIDEO := "/var/task/media/certificate_vid_mu.mp4";
     FONT_FILE := "/var/task/media/Montserrat-Bold.ttf" |}.

Definition photo : upload :=
  {| up_path := "/tmp/uploads/7d1c.jpg";
     up_bytes := [Byte.xff; Byte.xd8; Byte.xff; Byte.xe0] |}.

Definition text_file : upload :=
  {| up_path := "/tmp/uploads/90ab.jpg";
     up_bytes := [Byte.x68; Byte.x69] |}.

Definition empty_file : upload :=
  {| up_path := "/tmp/uploads/55e0.png";
     up_bytes := [] |}.

(** The disk when the handler starts: multer has stored the uploads. *)
Definition disk0 : disk :=
  [ "/tmp/uploads"; "/tmp/work";
    "/var/task/media/certificate_vid_mu.mp4";
    "/var/task/media/Montserrat-Bold.ttf";
    "/tmp/uploads/7d1c.jpg"; "/tmp/uploads/90ab.jpg"; "/tmp/uploads/55e0.png" ].

(** A deployment whose template video is missing. *)
Definition disk_no_template : disk :=
  [ "/tmp/uploads"; "/tmp/work";
    "/var/task/media/Montserrat-Bold.ttf";
    "/tmp/uploads/7d1c.jpg" ].

(** The decoder accepts what starts with the JPEG marker. *)
Definition decode (bytes : list Byte.byte) : outcome :=
  match bytes with
  | Byte.xff :: Byte.xd8 :: _ => Done
  | [] => Fails "Input Buffer is empty"
  | _ => Fails "Input buffer contains unsupported image format"
  end.

Definition fine : world :=
  {| uuid := "1b4e28ba";
     fs_copy := Done;
     fs_readFile := Done;
     sharp_decode := decode;
     sharp_write := Done;
     ffmpeg_run := fun _ => {| ff_lines := []; ff_exit := FfEnd |};
     download_error := None |}.

Definition diagnostic : string :=
  "[Parsed_drawtext_5] Cannot find a valid font for /var/task/media".

(** The same, with a render that fails. *)
Definition render_fails : world :=
  {| uuid := "1b4e28ba";
     fs_copy := Done;
     fs_readFile := Done;
     sharp_decode := decode;
     sharp_write := Done;
     ffmpeg_run := fun _ =>
       {| ff_lines := [diagnostic];
          ff_exit := FfError "ffmpeg exited with code 1" (Some diagnostic) |};
     download_error := None |}.

Definition req_ok : request :=
  {| body_name := Some "Jane Doe"; file := Some photo |}.

Definition req_no_name : request :=
  {| body_name := None; file := Some photo |}.

Definition req_nothing : request :=
  {| body_name := None; file := None |}.

(** A name of a colon, a double quote and a colon. *)
Definition colons : string :=
  String ":" (String Js.dquote (String ":" EmptyString)).

Definition req_colons : request :=
  {| body_name := Some colons; file := Some photo |}.

Definition req_text_file : request :=
  {| body_name := Some "Jane Doe"; file := Some text_file |}.

Definition req_empty_file : request :=
  {| body_name := Some "Jane Doe"; file := Some empty_file |}.

Definition fontCopyPath : string := "/tmp/work/1b4e28ba/Montserrat-Bold.ttf".

End Sample.

(* ================================================================== *)
(** ** Deployment layout and upload storage *)
(* ================================================================== *)

(** [RUNTIME_TMP]: the value of [TMPDIR] when it is set and not empty,
    else [/tmp]. *)
Definition RUNTIME_TMP (env_TMPDIR : option string) : string :=
  Js.opt_or_else env_TMPDIR "/tmp".

(** The configuration the module computes when it is loaded:
    [uploadsDir] and [tmpDirRoot] are the directories [uploads] and [work]
    under [RUNTIME_TMP]. *)
Definition deployment (separator : string) (env_TMPDIR : option string)
    (template font : string) : config :=
  {| sep := separator;
     uploadsDir := RUNTIME_TMP env_TMPDIR ++ separator ++ "uploads";
     tmpDirRoot := RUNTIME_TMP env_TMPDIR ++ separator ++ "work";
     TEMPLATE_VIDEO := template;
     FONT_FILE := font |}.

(** What multer's disk storage makes of an uploaded file: it is written
    into [uploadsDir] under a fresh identifier followed by [ext], the
    extension of the name the client gave. *)
Definition stored_upload (cfg : config) (id ext : string)
    (bytes : list Byte.byte) : upload :=
  {| up_path := path_join cfg (uploadsDir cfg) (id ++ ext);
     up_bytes := bytes |}.

(** How often the directory [dir] is removed in a trace. *)
Definition is_removal (dir : string) (e : event) : bool :=
  match e with
  | Remove p => String.eqb p dir
  | _ => false
  end.

Definition removals (dir : string) (evs : list event) : nat :=
  length (filter (is_removal dir) evs).

(* ================================================================== *)
(** ** Cross-origin headers (the copy with the explicit CORS set-up) *)
(* ================================================================== *)

Module Cors.

Definition ALLOWED_ORIGINS : list string :=
  [ "http://localhost:3000";
    "https://vercel-frontend-sigma-nine.vercel.app" ].

(** [array.includes(x)] on an array of strings. *)
Definition array_includes (xs : list string) (x : string) : bool :=
  existsb (String.eqb x) xs.

Inductive verdict :=
| Allow                         (* callback(null, true) *)
| Refuse (message : string).    (* callback(new Error(message)) *)

(** [corsOptions.origin]; [origin] is absent for requests that are not
    made by a browser. *)
Definition origin_policy (origin : option string) : verdict :=
  match origin with
  | None => Allow
  | Some o =>
      if negb (Js.truthy o) then Allow
      else if array_includes ALLOWED_ORIGINS o then Allow
      else Refuse "Not allowed by CORS"
  end.

(** The headers of a response, in the order they were first set, each
    under the spelling it was last set with. *)
Definition headers := list (string * string).

(** Header names are the same when they agree in lower case. *)
Definition same_name (a b : string) : bool :=
  String.eqb (Js.toLowerCase a) (Js.toLowerCase b).

(** [res.getHeader(name)]. *)
Fixpoint getHeader (name : string) (h : headers) : option string :=
  match h with
  | [] => None
  | (n, v) :: rest => if same_name n name then Some v else getHeader name rest
  end.

(** [res.setHeader(name, value)]: replaces the header of that name, under
    whatever spelling it is there, by the new spelling and value. *)
Fixpoint setHeader (name value : string) (h : headers) : headers :=
  match h with
  | [] => [(name, value)]
  | (n, v) :: rest =>
      if same_name n name then (name, value) :: rest
      else (n, v) :: setHeader name value rest
  end.

(** The header [name] is there in this very spelling with this value. *)
Fixpoint spelled (name value : string) (h : headers) : bool :=
  match h with
  | [] => false
  | (n, v) :: rest =>
      if same_name n name then (String.eqb n name && String.eqb v value)%bool
      else spelled name value rest
  end.

(** The test made before each echo of the origin:
    [origin && ALLOWED_ORIGINS.includes(origin)]. *)
Definition echoed (origin : option string) : option string :=
  match origin with
  | Some o =>
      if (Js.truthy o && array_includes ALLOWED_ORIGINS o)%bool then Some o
      else None
  | None => None
  end.

(** The echo itself, as it is repeated before the download, in the catch
    block and in the global error handler. *)
Definition echo_origin (origin : option string) (h : headers) : headers :=
  match echoed origin with
  | Some o => setHeader "Access-Control-Allow-Origin" o h
  | None => h
  end.

(** [setCorsHeaders], up to the call of [next]. *)
Definition setCorsHeaders (origin : option string) (h : headers) : headers :=
  setHeader "Vary" "Origin"
    (setHeader "Access-Control-Allow-Credentials" "false"
       (setHeader "Access-Control-Allow-Headers"
          "Origin,Content-Type,Authorization,Accept,X-Requested-With"
          (setHeader "Access-Control-Allow-Methods" "GET,POST,OPTIONS"
             (echo_origin origin h)))).

(** The global error handler: [err] is the message of the error, absent
    when there is no error object or no message. *)
Definition error_handler (err : option string) (origin : option string)
    (h : headers) : response * headers :=
  (Json 500 (Js.opt_or_else err "Server error"), echo_origin origin h).

End Cors.

(* ================================================================== *)
(** ** The check of the engine's version at start-up *)
(* ================================================================== *)

Module VersionCheck.

Definition newline : ascii := "010"%char.

(** [s.split('\n')]: never empty; the empty string gives one empty line. *)
Fixpoint split_lines (s : string) : list string :=
  match s with
  | EmptyString => [EmptyString]
  | String c r =>
      if Ascii.eqb c newline then EmptyString :: split_lines r
      else match split_lines r with
           | line :: rest => String c line :: rest
           | [] => [String c EmptyString]
           end
  end.

(** [lines.join('\n')]. *)
Fixpoint join_lines (lines : list string) : string :=
  match lines with
  | [] => EmptyString
  | [line] => line
  | line :: rest => line ++ String newline (join_lines rest)
  end.

(** [(stdout || '').split('\n').slice(0, 6).join('\n')]. *)
Definition outLines (stdout : option string) : string :=
  join_lines (firstn 6 (split_lines (Js.opt_or_else stdout ""))).

(** A literal of the pattern matched at the start of [s], letters compared
    without regard to case. *)
Fixpoint matches_here (literal s : string) : bool :=
  match literal, s with
  | EmptyString, _ => true
  | String _ _, EmptyString => false
  | String p pr, String c r =>
      (Ascii.eqb (Js.upper_char c) (Js.upper_char p) && matches_here pr r)%bool
  end.

(** [/freetype|libfreetype/i.test(s)]: at some position one of the two
    alternatives matches. *)
Fixpoint freetype_test (s : string) : bool :=
  ((matches_here "freetype" s || matches_here "libfreetype" s)
   || match s with
      | EmptyString => false
      | String _ r => freetype_test r
      end)%bool.

(** Some position of [s] where [literal] matches. *)
Fixpoint occurs (literal s : string) : bool :=
  (matches_here literal s
   || match s with
      | EmptyString => false
      | String _ r => occurs literal r
      end)%bool.

(** The callback of [execFile(ffmpegStatic, ['-version'], ...)]: what it
    prints.  [err] is the error of the launch, if any. *)
Definition version_check (rev : revision) (err : option string)
    (stdout stderr : string) : list event :=
  match err with
  | Some e => [Console WarnLevel ["Could not run ffmpeg -version check"; e]]
  | None =>
      [ Console LogLevel
          ["ffmpeg -version (top lines):" ++ String newline (outLines (Some stdout))];
        if freetype_test (stdout ++ stderr)
        then Console LogLevel
               [match rev with
                | Plain => "ffmpeg includes freetype (drawtext should work)."
                | Verbose =>
                    "ffmpeg appears to include freetype (drawtext likely works)."
                end]
        else Console WarnLevel
               [match rev with
                | Plain => "⚠ ffmpeg may not have freetype — drawtext might fail."
                | Verbose => "⚠ ffmpeg may NOT include freetype (drawtext might fail)."
                end] ]
  end.

End VersionCheck.

(* ================================================================== *)
(** ** A second deployment, by the module's own layout *)
(* ================================================================== *)

Module Site.

Definition cfg : config :=
  deployment "/" None "/var/task/media/certificate_vid_mu.mp4"
    "/var/task/media/Montserrat-Bold.ttf".

Definition photo : upload :=
  stored_upload cfg "7d1c" ".jpg" [Byte.xff; Byte.xd8; Byte.xff; Byte.xe0].

Definition disk0 : disk :=
  [ "/tmp/uploads"; "/tmp/work";
    "/var/task/media/certificate_vid_mu.mp4";
    "/var/task/media/Montserrat-Bold.ttf";
    "/tmp/uploads/7d1c.jpg"; "/home/app/notes.txt" ].

Definition req_ok : request :=
  {| body_name := Some "Jane Doe"; file := Some photo |}.

Definition req_blank : request :=
  {| body_name := Some "   "; file := Some photo |}.

(** A second request in progress, with its own identifier. *)
Definition neighbour : world :=
  {| uuid := "9c0d17aa";
     fs_copy := Done;
     fs_readFile := Done;
     sharp_decode := fun _ => Done;
     sharp_write := Done;
     ffmpeg_run := fun _ => {| ff_lines := []; ff_exit := FfEnd |};
     download_error := None |}.

Definition disk_shared : disk :=
  (disk0 ++ [ "/tmp/work/9c0d17aa"; "/tmp/work/9c0d17aa/overlay_600.png" ])%list.

End Site.

(* ================================================================== *)
(** ** Requests with other name fields, and a full disk *)
(* ================================================================== *)

Module Field.

(** No field at all. *)
Definition nothing : submission :=
  {| name_field := None; attachment := None |}.

(** The field sent as [name[a]=x], without photo. *)
Definition keyed_without_photo : submission :=
  {| name_field := Some Keyed; attachment := None |}.

(** The field sent twice, with a photo. *)
Definition repeated : submission :=
  {| name_field := Some (Items [Text "Ann"; Text "Lee"]);
     attachment := Some Sample.photo |}.

Definition engine : environment :=
  {| outside := Sample.fine;
     fs_ensureDir := Done;
     type_error := "(intermediate value).toString is not a function" |}.

(** The workspace cannot be created. *)
Definition no_space : environment :=
  {| outside := Sample.fine;
     fs_ensureDir := Fails "ENOSPC: no space left on device, mkdir";
     type_error := "(intermediate value).toString is not a function" |}.

End Field.

(* ================================================================== *)
(** * Properties *)
(* ================================================================== *)

(** ** Characters and strings *)

Section Characters.

Local Ltac by_cases c :=
  destruct c as [[] [] [] [] [] [] [] []]; reflexivity.

Lemma upper_char_idem (c : ascii) :
  Js.upper_char (Js.upper_char c) = Js.upper_char c.
Proof. by_cases c. Qed.

Lemma is_ws_upper_char (c : ascii) :
  Js.is_ws (Js.upper_char c) = Js.is_ws c.
Proof. by_cases c. Qed.

Lemma colon_or_dquote_upper_char (c : ascii) :
  colon_or_dquote (Js.upper_char c) = colon_or_dquote c.
Proof. by_cases c. Qed.

End Characters.

Lemma toUpperCase_idem (s : string) :
  Js.toUpperCase (Js.toUpperCase s) = Js.toUpperCase s.
Proof.
  induction s as [|c r IH]; simpl; [reflexivity|].
  now rewrite upper_char_idem, IH.
Qed.

Lemma toUpperCase_trimStart (s : string) :
  Js.toUpperCase (Js.trimStart s) = Js.trimStart (Js.toUpperCase s).
Proof.
  induction s as [|c r IH]; simpl; [reflexivity|].
  rewrite is_ws_upper_char. destruct (Js.is_ws c); [exact IH | reflexivity].
Qed.

Lemma toUpperCase_trimEnd (s : string) :
  Js.toUpperCase (Js.trimEnd s) = Js.trimEnd (Js.toUpperCase s).
Proof.
  induction s as [|c r IH]; simpl; [reflexivity|].
  rewrite <- IH, is_ws_upper_char.
  destruct (Js.trimEnd r) as [|c' r']; simpl.
  - destruct (Js.is_ws c); reflexivity.
  - reflexivity.
Qed.

Lemma toUpperCase_trim (s : string) :
  Js.toUpperCase (Js.trim s) = Js.trim (Js.toUpperCase s).
Proof.
  unfold Js.trim. now rewrite toUpperCase_trimEnd, toUpperCase_trimStart.
Qed.

Lemma toUpperCase_remove_all (s : string) :
  Js.toUpperCase (Js.remove_all colon_or_dquote s)
  = Js.remove_all colon_or_dquote (Js.toUpperCase s).
Proof.
  induction s as [|c r IH]; simpl; [reflexivity|].
  rewrite colon_or_dquote_upper_char.
  destruct (colon_or_dquote c); simpl; now rewrite IH.
Qed.

Lemma sanitizeForDrawText_remove_all (s : string) :
  sanitizeForDrawText s = Js.remove_all colon_or_dquote s.
Proof. destruct s; reflexivity. Qed.

Lemma all_chars_remove_all (p : ascii -> bool) (s : string) :
  Js.all_chars (fun c => negb (p c)) (Js.remove_all p s) = true.
Proof.
  induction s as [|c r IH]; simpl; [reflexivity|].
  destruct (p c) eqn:E; simpl; [exact IH|].
  now rewrite E, IH.
Qed.

Lemma remove_all_none (p : ascii -> bool) (s : string) :
  Js.all_chars (fun c => negb (p c)) s = true -> Js.remove_all p s = s.
Proof.
  induction s as [|c r IH]; simpl; [reflexivity|].
  intros H. apply andb_true_iff in H as [Hc Hr].
  apply negb_true_iff in Hc. rewrite Hc. now rewrite IH.
Qed.

Lemma remove_all_every (p : ascii -> bool) (s : string) :
  Js.all_chars p s = true -> Js.remove_all p s = "".
Proof.
  induction s as [|c r IH]; simpl; [reflexivity|].
  intros H. apply andb_true_iff in H as [Hc Hr].
  rewrite Hc. now apply IH.
Qed.

Lemma all_chars_trimStart (p : ascii -> bool) (s : string) :
  Js.all_chars p s = true -> Js.all_chars p (Js.trimStart s) = true.
Proof.
  induction s as [|c r IH]; simpl; [reflexivity|].
  intros H. destruct (Js.is_ws c); simpl; [|exact H].
  apply andb_true_iff in H as [_ Hr]. now apply IH.
Qed.

Lemma all_chars_trimEnd (p : ascii -> bool) (s : string) :
  Js.all_chars p s = true -> Js.all_chars p (Js.trimEnd s) = true.
Proof.
  induction s as [|c r IH]; simpl; [reflexivity|].
  intros H. apply andb_true_iff in H as [Hc Hr].
  specialize (IH Hr).
  destruct (Js.trimEnd r) as [|c' r'].
  - destruct (Js.is_ws c); simpl; [reflexivity|]. now rewrite Hc.
  - simpl in *. now rewrite Hc, IH.
Qed.

Lemma all_chars_trim (p : ascii -> bool) (s : string) :
  Js.all_chars p s = true -> Js.all_chars p (Js.trim s) = true.
Proof.
  intros H. unfold Js.trim. now apply all_chars_trimEnd, all_chars_trimStart.
Qed.

Lemma all_chars_toUpperCase (s : string) :
  Js.all_chars colon_or_dquote s = true ->
  Js.all_chars colon_or_dquote (Js.toUpperCase s) = true.
Proof.
  induction s as [|c r IH]; simpl; [reflexivity|].
  intros H. apply andb_true_iff in H as [Hc Hr].
  now rewrite colon_or_dquote_upper_char, Hc, IH.
Qed.

Lemma trimEnd_idem (s : string) : Js.trimEnd (Js.trimEnd s) = Js.trimEnd s.
Proof.
  induction s as [|c r IH]; simpl; [reflexivity|].
  destruct (Js.trimEnd r) as [|c' r'] eqn:E.
  - destruct (Js.is_ws c) eqn:W; simpl; [reflexivity|]. now rewrite W.
  - change (Js.trimEnd (String c (String c' r'))) with
      (match Js.trimEnd (String c' r') with
       | EmptyString => if Js.is_ws c then EmptyString else String c EmptyString
       | r'' => String c r''
       end).
    now rewrite IH.
Qed.

Lemma starts_clean_trimStart (s : string) : Js.starts_clean (Js.trimStart s) = true.
Proof.
  induction s as [|c r IH]; simpl; [reflexivity|].
  destruct (Js.is_ws c) eqn:W; [exact IH|]. simpl. now rewrite W.
Qed.

Lemma starts_clean_trimEnd (s : string) :
  Js.starts_clean s = true -> Js.starts_clean (Js.trimEnd s) = true.
Proof.
  destruct s as [|c r]; simpl; [reflexivity|].
  intros H. apply negb_true_iff in H.
  destruct (Js.trimEnd r); rewrite ?H; simpl; now rewrite H.
Qed.

Lemma trimStart_clean (s : string) :
  Js.starts_clean s = true -> Js.trimStart s = s.
Proof.
  destruct s as [|c r]; simpl; [reflexivity|].
  intros H. apply negb_true_iff in H. now rewrite H.
Qed.

Lemma trim_idem (s : string) : Js.trim (Js.trim s) = Js.trim s.
Proof.
  unfold Js.trim.
  rewrite (trimStart_clean (Js.trimEnd (Js.trimStart s))).
  - apply trimEnd_idem.
  - apply starts_clean_trimEnd, starts_clean_trimStart.
Qed.

Lemma truthy_false (s : string) : Js.truthy s = false <-> s = "".
Proof. destruct s; simpl; split; congruence. Qed.

Lemma truthy_true (s : string) : Js.truthy s = true <-> s <> "".
Proof. destruct s; simpl; split; congruence. Qed.

Lemma all_chars_In (p : ascii -> bool) (s : string) :
  Js.all_chars p s = true <->
  (forall c, In c (list_ascii_of_string s) -> p c = true).
Proof.
  induction s as [|c r IH]; simpl.
  - split; [intros _ c [] | reflexivity].
  - rewrite andb_true_iff, IH. split.
    + intros [Hc Hr] x [<- | Hx]; auto.
    + intros H. split; [apply H; now left | intros x Hx; apply H; now right].
Qed.

Lemma colon_or_dquote_spec (c : ascii) :
  colon_or_dquote c = true <-> c = ":"%char \/ c = Js.dquote.
Proof.
  unfold colon_or_dquote. rewrite orb_true_iff, !Ascii.eqb_eq. reflexivity.
Qed.

(** ** The disk *)

Lemma pathExists_In (p : string) (d : disk) :
  Fs.pathExists p d = true <-> In p d.
Proof.
  unfold Fs.pathExists. rewrite existsb_exists. split.
  - intros (q & Hq & E). apply String.eqb_eq in E. now subst.
  - intros H. exists p. split; [exact H | apply String.eqb_refl].
Qed.

Lemma In_create (p q : string) (d : disk) : In p d -> In p (Fs.create q d).
Proof.
  intros H. unfold Fs.create. destruct (Fs.pathExists q d); [exact H | now right].
Qed.

Lemma In_remove (cfg : config) (dir p : string) (d : disk) :
  In p (Fs.remove cfg dir d) <-> In p d /\ Fs.inside cfg dir p = false.
Proof.
  unfold Fs.remove. rewrite filter_In, negb_true_iff. reflexivity.
Qed.

Lemma prefix_app (a b : string) : String.prefix a (a ++ b) = true.
Proof.
  induction a as [|c r IH]; simpl.
  - now destruct b.
  - destruct (ascii_dec c c) as [_|N]; [exact IH | now elim N].
Qed.

Lemma append_assoc (a b c : string) : (a ++ b) ++ c = a ++ (b ++ c).
Proof. induction a as [|x r IH]; simpl; [reflexivity | now rewrite IH]. Qed.

(** What [path.join] puts under a directory lies inside it. *)
Lemma inside_path_join (cfg : config) (dir leaf : string) :
  Fs.inside cfg dir (path_join cfg dir leaf) = true.
Proof.
  unfold Fs.inside, path_join.
  rewrite <- append_assoc, prefix_app. apply orb_true_r.
Qed.

(** ** Running the handler *)

Lemma log_lines_run (requestId : string) (lines : list string) (st : state) :
  log_lines requestId lines st
  = (Ok tt, {| fs := fs st; events := events st ++ line_events requestId lines |}).
Proof.
  revert st. induction lines as [|line rest IH]; intros st.
  - unfold line_events. simpl. rewrite app_nil_r. now destruct st.
  - unfold line_events in *. simpl. unfold bind.
    destruct (Js.truthy line && Js.truthy (Js.trim line))%bool; simpl.
    + rewrite IH. simpl. now rewrite <- app_assoc.
    + rewrite IH. reflexivity.
Qed.

Lemma name_text_of_text (n : option string) :
  name_text (option_map Text n) = Some (Js.opt_or_else n "").
Proof.
  destruct n as [s|]; [|reflexivity].
  cbn. unfold Js.or_else. now destruct (Js.truthy s).
Qed.

Lemma nameRaw_of_text (env : environment) (n : option string) :
  nameRaw_of env (option_map Text n) = ret (Js.opt_or_else n "").
Proof. unfold nameRaw_of. now rewrite name_text_of_text. Qed.

(** Symbolic execution: unfold the handler and the monad, then split on
    each test the code makes, in program order. *)
Ltac handler_unfold :=
  unfold response_of, disk_after, events_of, run, answer, disk_left, trace,
    serve, generate, handler,
    calm, of_text, try_catch,
    try_block, catch_block, download, download_callback, ffmpeg, sharp,
    readFile, copy, writes, pathExists, remove, ensureDir, console_v,
    console, on_disk, emit, bind, ret, throw, initial, planned_render,
    workDir_of in *;
  cbv zeta in *;
  cbn [name_field attachment outside fs_ensureDir type_error] in *;
  rewrite ?nameRaw_of_text in *;
  unfold nameRaw_of, writes, on_disk, ret, throw in *;
  cbn [fst snd fs events sharp_input toFile overlay_job save render_job] in *.

Ltac handler_step :=
  match goal with
  | |- context [log_lines ?i ?l ?s] => rewrite (log_lines_run i l s)
  | H : ?x = _ |- context [match ?x with _ => _ end] => rewrite H
  | H : ?x = _ |- context [if ?x then _ else _] => rewrite H
  | H : ?x = _ |- context [if negb ?x then _ else _] => rewrite H
  | |- context [match ?x with _ => _ end] =>
      lazymatch x with
      | context [match _ with _ => _ end] => fail
      | _ => destruct x eqn:?
      end
  | |- context [if ?x then _ else _] =>
      lazymatch x with
      | context [if _ then _ else _] => fail
      | _ => destruct x eqn:?
      end
  end; cbn [fst snd fs events verbose negb] in *.

Ltac handler_run :=
  handler_unfold;
  try match goal with r : revision |- _ => destruct r end;
  cbn [verbose] in *;
  repeat handler_step.

(** An event that is in a trace built by appending. *)
Ltac in_trace := rewrite ?in_app_iff; cbn [In]; intuition (auto; congruence).

(* ================================================================== *)
(** ** Name sanitization *)
(* ================================================================== *)

Lemma sanitize_clean (s : string) :
  Js.all_chars (fun c => negb (colon_or_dquote c)) (sanitize s) = true.
Proof.
  unfold sanitize. rewrite sanitizeForDrawText_remove_all.
  apply all_chars_remove_all.
Qed.

Lemma toUpperCase_sanitize (s : string) :
  Js.toUpperCase (sanitize s) = sanitize s.
Proof.
  unfold sanitize. rewrite !sanitizeForDrawText_remove_all.
  now rewrite toUpperCase_remove_all, toUpperCase_trim, toUpperCase_idem.
Qed.

Lemma sanitizeForDrawText_idem (s : string) :
  sanitizeForDrawText (sanitizeForDrawText s) = sanitizeForDrawText s.
Proof.
  rewrite !sanitizeForDrawText_remove_all.
  apply remove_all_none, all_chars_remove_all.
Qed.

Lemma sanitize_twice (s : string) :
  sanitize (sanitize s) = Js.trim (sanitize s).
Proof.
  unfold sanitize at 1. rewrite toUpperCase_sanitize.
  rewrite sanitizeForDrawText_remove_all.
  apply remove_all_none, all_chars_trim, sanitize_clean.
Qed.

(** C4, as stated, fails: the colon is stripped after the trimming, so the
    blank that followed it becomes a leading blank of the result, and a
    second pass trims it. *)
Lemma sanitize_not_idempotent :
  sanitize ": a" = " A" /\
  sanitize (sanitize ": a") = "A" /\
  sanitize (sanitize ": a") <> sanitize ": a".
Proof. repeat split. discriminate. Qed.

(** C4, amended: the stripping of colon and double quote alone is
    idempotent; a second pass of the whole sanitization (upper case, trim,
    strip) does nothing but trim the result of the first; and from the
    second pass on nothing changes any more. *)
Theorem sanitize_second_pass_trims (s : string) :
  sanitizeForDrawText (sanitizeForDrawText s) = sanitizeForDrawText s /\
  sanitize (sanitize s) = Js.trim (sanitize s) /\
  sanitize (sanitize (sanitize s)) = sanitize (sanitize s).
Proof.
  split; [apply sanitizeForDrawText_idem|].
  split; [apply sanitize_twice|].
  now rewrite (sanitize_twice (sanitize s)), sanitize_twice, trim_idem.
Qed.

(** Hence the sanitization is idempotent on exactly those names whose
    sanitized form has no blank left at either end. *)
Corollary sanitize_idempotent_iff (s : string) :
  sanitize (sanitize s) = sanitize s <-> Js.trim (sanitize s) = sanitize s.
Proof. now rewrite sanitize_twice. Qed.

Lemma sanitize_only_stripped (s : string) :
  Js.all_chars colon_or_dquote s = true -> sanitize s = "".
Proof.
  intros H. unfold sanitize. rewrite sanitizeForDrawText_remove_all.
  now apply remove_all_every, all_chars_trim, all_chars_toUpperCase.
Qed.

(* ================================================================== *)
(** ** Validation *)
(* ================================================================== *)

(** The four checks, for every request whose name field can be converted
    to text, the workspace having been created. *)
Lemma validation_checks
    (rev : revision) (cfg : config) (env : environment) (sub : submission)
    (d : disk) (raw : string) :
  fs_ensureDir env = Done ->
  name_text (name_field sub) = Some raw ->
  let seen := Fs.create (workDir_of cfg (outside env)) d in
  let name := sanitize raw in
  let sent := answer rev cfg env sub d in
  let evs := trace rev cfg env sub d in
  (attachment sub = None ->
     sent = Some (Json 400 "Photo is required (field name: photo)") /\ quiet evs) /\
  (attachment sub <> None -> name = "" ->
     sent = Some (Json 400 "Name is required") /\ quiet evs) /\
  (attachment sub <> None -> name <> "" ->
   Fs.pathExists (TEMPLATE_VIDEO cfg) seen = false ->
     sent = Some (Json 500 "Template video missing on server") /\ quiet evs) /\
  (attachment sub <> None -> name <> "" ->
   Fs.pathExists (TEMPLATE_VIDEO cfg) seen = true ->
   Fs.pathExists (FONT_FILE cfg) seen = false ->
     sent = Some (Json 500 "Font file missing on server") /\ quiet evs) /\
  (attachment sub <> None -> name <> "" ->
   Fs.pathExists (TEMPLATE_VIDEO cfg) seen = true ->
   Fs.pathExists (FONT_FILE cfg) seen = true ->
     In (Copy (FONT_FILE cfg)
              (path_join cfg (workDir_of cfg (outside env)) "Montserrat-Bold.ttf"))
        evs).
Proof.
  intros Hdir Hraw. cbv zeta. unfold quiet.
  repeat split; intros.
  all: try match goal with H : _ <> "" |- _ => apply truthy_true in H end.
  all: try match goal with H : _ = "" |- _ => apply truthy_false in H end.
  all: destruct (attachment sub) as [f|] eqn:Hf; try congruence.
  all: handler_run.
  all: try reflexivity.
  all: in_trace.
Qed.

(** The same for the requests whose name is absent or a text. *)
Lemma validation_of_text
    (rev : revision) (cfg : config) (w : world) (req : request) (d : disk) :
  let seen := Fs.create (workDir_of cfg w) d in
  let name := sanitize (Js.opt_or_else (body_name req) "") in
  let sent := response_of rev cfg w req d in
  let evs := events_of rev cfg w req d in
  (file req = None ->
     sent = Some (Json 400 "Photo is required (field name: photo)") /\ quiet evs) /\
  (file req <> None -> name = "" ->
     sent = Some (Json 400 "Name is required") /\ quiet evs) /\
  (file req <> None -> name <> "" ->
   Fs.pathExists (TEMPLATE_VIDEO cfg) seen = false ->
     sent = Some (Json 500 "Template video missing on server") /\ quiet evs) /\
  (file req <> None -> name <> "" ->
   Fs.pathExists (TEMPLATE_VIDEO cfg) seen = true ->
   Fs.pathExists (FONT_FILE cfg) seen = false ->
     sent = Some (Json 500 "Font file missing on server") /\ quiet evs) /\
  (file req <> None -> name <> "" ->
   Fs.pathExists (TEMPLATE_VIDEO cfg) seen = true ->
   Fs.pathExists (FONT_FILE cfg) seen = true ->
     In (Copy (FONT_FILE cfg)
              (path_join cfg (workDir_of cfg w) "Montserrat-Bold.ttf")) evs).
Proof.
  exact (validation_checks rev cfg (calm w) (of_text req) d
           (Js.opt_or_else (body_name req) "") eq_refl
           (name_text_of_text (body_name req))).
Qed.

(** A name field that cannot be converted to text ends the request before
    any check is made: whatever else the request holds, the answer is the
    error raised by the conversion, with status 500; the workspace has been
    removed and no expensive work was started. *)
Lemma unconvertible_name
    (rev : revision) (cfg : config) (env : environment) (sub : submission)
    (d : disk) :
  fs_ensureDir env = Done ->
  name_text (name_field sub) = None ->
  answer rev cfg env sub d
  = Some (Json 500 (Js.or_else (type_error env) "Server error")) /\
  quiet (trace rev cfg env sub d) /\
  disk_left rev cfg env sub d
  = Fs.remove cfg (workDir_of cfg (outside env))
      (Fs.create (workDir_of cfg (outside env)) d).
Proof.
  intros Hdir Hraw. unfold quiet. repeat split; handler_run; reflexivity.
Qed.

Lemma unconvertible_name_witness :
  answer Plain Sample.cfg Field.engine Field.keyed_without_photo Sample.disk0
  = Some (Json 500 "(intermediate value).toString is not a function").
Proof.
  exact (proj1 (unconvertible_name Plain Sample.cfg Field.engine
                  Field.keyed_without_photo Sample.disk0 eq_refl eq_refl)).
Defined.

(** C10: a request without photo whose name field is absent or converts to
    text is answered with the photo error and not with the name error,
    whatever that text is, hence also when nothing of it is left after
    sanitization: the test on the photo comes before the test on the name.
    And the name error is only ever sent to a request that carries a
    photo.  (The workspace is taken to have been created; a name field that
    cannot be converted to text is not a missing name, and ends the request
    with status 500 before either test.) *)
Theorem photo_check_precedes_name_check
    (rev : revision) (cfg : config) (env : environment) (sub : submission)
    (d : disk) :
  fs_ensureDir env = Done ->
  (attachment sub = None ->
   forall raw, name_text (name_field sub) = Some raw ->
     answer rev cfg env sub d
     = Some (Json 400 "Photo is required (field name: photo)") /\
     answer rev cfg env sub d <> Some (Json 400 "Name is required")) /\
  (attachment sub = None ->
   (forall raw, name_text (name_field sub) = Some raw -> sanitize raw = "") ->
     answer rev cfg env sub d <> Some (Json 400 "Name is required")) /\
  (answer rev cfg env sub d = Some (Json 400 "Name is required") ->
     exists f, attachment sub = Some f).
Proof.
  intros Hdir. split; [| split].
  - intros Hp raw Hraw.
    destruct (validation_checks rev cfg env sub d raw Hdir Hraw) as [V _].
    cbv zeta in V. destruct (V Hp) as [E _].
    split; [exact E | rewrite E; discriminate].
  - intros Hp _. handler_run; discriminate.
  - handler_run; intros; try discriminate; eauto.
Qed.

Lemma photo_check_precedes_name_check_witness :
  (answer Plain Sample.cfg Field.engine Field.nothing Sample.disk0
   = Some (Json 400 "Photo is required (field name: photo)") /\
   answer Plain Sample.cfg Field.engine Field.nothing Sample.disk0
   <> Some (Json 400 "Name is required")) /\
  exists f, file Sample.req_no_name = Some f.
Proof.
  split.
  - apply (proj1 (photo_check_precedes_name_check Plain Sample.cfg Field.engine
                    Field.nothing Sample.disk0 eq_refl) eq_refl "").
    reflexivity.
  - apply (proj2 (proj2 (photo_check_precedes_name_check Plain Sample.cfg
                           (calm Sample.fine) (of_text Sample.req_no_name)
                           Sample.disk0 eq_refl))).
    reflexivity.
Defined.

(** C7, as stated, fails on the emptiness of the photo: an upload of no
    bytes at all passes the validation, the font is copied, and the request
    ends as a server error raised by the decoder. *)
Lemma empty_photo_passes_validation :
  file Sample.req_empty_file = Some Sample.empty_file /\
  up_bytes Sample.empty_file = [] /\
  response_of Plain Sample.cfg Sample.fine Sample.req_empty_file Sample.disk0
  = Some (Json 500 "Input Buffer is empty") /\
  In (Copy "/var/task/media/Montserrat-Bold.ttf"
           "/tmp/work/1b4e28ba/Montserrat-Bold.ttf")
     (events_of Plain Sample.cfg Sample.fine Sample.req_empty_file Sample.disk0) /\
  ~ quiet (events_of Plain Sample.cfg Sample.fine Sample.req_empty_file Sample.disk0).
Proof.
  repeat split.
  - vm_compute. tauto.
  - vm_compute. discriminate.
Qed.

(** C7, amended: for a request whose name field is absent or converts to
    text, the four checks are made in order before any expensive work: a
    photo attachment is present (its content is not examined), the
    sanitized name is not empty, the template video exists, the font file
    exists.  The first two failures are answered with status 400, the last
    two with status 500, and in all four cases neither the font copy nor the
    compositor nor the render has been started.  Once the four checks pass
    the font copy is started.  [seen] is the disk as the handler meets it,
    the workspace just created. *)
Theorem validation_precedes_work
    (rev : revision) (cfg : config) (env : environment) (sub : submission)
    (d : disk) (raw : string) :
  fs_ensureDir env = Done ->
  name_text (name_field sub) = Some raw ->
  let seen := Fs.create (workDir_of cfg (outside env)) d in
  let name := sanitize raw in
  let sent := answer rev cfg env sub d in
  let evs := trace rev cfg env sub d in
  (attachment sub = None ->
     sent = Some (Json 400 "Photo is required (field name: photo)") /\ quiet evs) /\
  (attachment sub <> None -> name = "" ->
     sent = Some (Json 400 "Name is required") /\ quiet evs) /\
  (attachment sub <> None -> name <> "" ->
   Fs.pathExists (TEMPLATE_VIDEO cfg) seen = false ->
     sent = Some (Json 500 "Template video missing on server") /\ quiet evs) /\
  (attachment sub <> None -> name <> "" ->
   Fs.pathExists (TEMPLATE_VIDEO cfg) seen = true ->
   Fs.pathExists (FONT_FILE cfg) seen = false ->
     sent = Some (Json 500 "Font file missing on server") /\ quiet evs) /\
  (attachment sub <> None -> name <> "" ->
   Fs.pathExists (TEMPLATE_VIDEO cfg) seen = true ->
   Fs.pathExists (FONT_FILE cfg) seen = true ->
     In (Copy (FONT_FILE cfg)
              (path_join cfg (workDir_of cfg (outside env)) "Montserrat-Bold.ttf"))
        evs).
Proof. exact (validation_checks rev cfg env sub d raw). Qed.

Lemma validation_precedes_work_witness :
  (answer Plain Sample.cfg Field.engine Field.repeated Sample.disk_no_template
   = Some (Json 500 "Template video missing on server") /\
   quiet (trace Plain Sample.cfg Field.engine Field.repeated
            Sample.disk_no_template)) /\
  (response_of Plain Sample.cfg Sample.fine Sample.req_colons Sample.disk0
   = Some (Json 400 "Name is required") /\
   quiet (events_of Plain Sample.cfg Sample.fine Sample.req_colons Sample.disk0)).
Proof.
  split.
  - pose proof (validation_precedes_work Plain Sample.cfg Field.engine
                  Field.repeated Sample.disk_no_template "Ann,Lee"
                  eq_refl eq_refl) as H.
    cbv zeta in H. destruct H as (_ & _ & H & _).
    apply H; [discriminate | intro E; vm_compute in E; discriminate | reflexivity].
  - pose proof (validation_precedes_work Plain Sample.cfg (calm Sample.fine)
                  (of_text Sample.req_colons) Sample.disk0 Sample.colons
                  eq_refl eq_refl) as H.
    cbv zeta in H. destruct H as (_ & H & _).
    apply H; [discriminate | reflexivity].
Defined.

Lemma run_depends_on_sanitized_name
    (rev : revision) (cfg : config) (w : world) (photo : option upload)
    (n1 n2 : option string) (d : disk) :
  sanitize (Js.opt_or_else n1 "") = sanitize (Js.opt_or_else n2 "") ->
  run rev cfg w {| body_name := n1; file := photo |} d
  = run rev cfg w {| body_name := n2; file := photo |} d.
Proof.
  intros E. unfold run, generate, handler, try_block, of_text.
  cbn [name_field attachment body_name file]. rewrite !nameRaw_of_text.
  unfold bind at 3 6. unfold ret at 1 2. cbv beta iota.
  now rewrite E.
Qed.

(** C5: the sanitized name holds no colon and no double quote; a name made
    of colons and double quotes only is sanitized to the empty string, and
    the request that carries it is treated as the request without a name:
    the whole run is the same, the answer has status 400, and when a photo
    is attached it is the name error. *)
Theorem sanitize_strips_and_rejects (s : string) :
  (forall c, In c (list_ascii_of_string (sanitize s)) ->
     c <> ":"%char /\ c <> Js.dquote) /\
  ((forall c, In c (list_ascii_of_string s) -> c = ":"%char \/ c = Js.dquote) ->
     sanitize s = "" /\
     forall rev cfg w photo d,
       let req := {| body_name := Some s; file := photo |} in
       run rev cfg w req d
       = run rev cfg w {| body_name := None; file := photo |} d /\
       (exists message, response_of rev cfg w req d = Some (Json 400 message)) /\
       (photo <> None ->
          response_of rev cfg w req d = Some (Json 400 "Name is required"))).
Proof.
  split.
  - intros c Hc.
    pose proof (proj1 (all_chars_In _ _) (sanitize_clean s) c Hc) as H.
    apply negb_true_iff in H.
    split; intros ->; now rewrite (proj2 (colon_or_dquote_spec _)) in H by auto.
  - intros Hs.
    assert (E : sanitize s = "").
    { apply sanitize_only_stripped, all_chars_In.
      intros c Hc. now apply colon_or_dquote_spec, Hs. }
    split; [exact E|]. intros rev cfg w photo d req.
    assert (N : sanitize (Js.opt_or_else (body_name req) "") = "").
    { cbn. unfold Js.or_else. destruct (Js.truthy s); [exact E | reflexivity]. }
    split; [| split].
    + apply run_depends_on_sanitized_name. exact N.
    + pose proof (validation_of_text rev cfg w req d) as V.
      cbv zeta in V. destruct V as (V1 & V2 & _).
      destruct photo as [f|].
      * exists "Name is required". apply V2; [discriminate | exact N].
      * exists "Photo is required (field name: photo)". now apply V1.
    + intros Hp.
      pose proof (validation_of_text rev cfg w req d) as V.
      cbv zeta in V. destruct V as (_ & V2 & _).
      apply V2; [exact Hp | exact N].
Qed.

Lemma sanitize_strips_and_rejects_witness :
  sanitize Sample.colons = "" /\
  response_of Plain Sample.cfg Sample.fine Sample.req_colons Sample.disk0
  = Some (Json 400 "Name is required").
Proof.
  assert (H : forall c, In c (list_ascii_of_string Sample.colons) ->
                c = ":"%char \/ c = Js.dquote).
  { intros c [<- | [<- | [<- | []]]]; auto. }
  destruct (proj2 (sanitize_strips_and_rejects Sample.colons) H) as [E R].
  split; [exact E|].
  destruct (R Plain Sample.cfg Sample.fine (Some Sample.photo) Sample.disk0)
    as (_ & _ & R3).
  apply R3. discriminate.
Defined.

(* ================================================================== *)
(** ** Failures of the pipeline *)
(* ================================================================== *)

(** C3, as stated, fails: an upload that is not an image, sent with a
    proper name, is answered with status 500. *)
Lemma undecodable_photo_gets_500 :
  sharp_decode Sample.fine (up_bytes Sample.text_file)
  = Fails "Input buffer contains unsupported image format" /\
  response_of Plain Sample.cfg Sample.fine Sample.req_text_file Sample.disk0
  = Some (Json 500 "Input buffer contains unsupported image format") /\
  response_of Verbose Sample.cfg Sample.fine Sample.req_text_file Sample.disk0
  = Some (Json 500 "Input buffer contains unsupported image format").
Proof. repeat split. Qed.

(** C3, amended: a request whose photo cannot be decoded fails with the
    name error (status 400) when its sanitized name is empty, and with
    status 500 otherwise; when it gets as far as the compositor the message
    is the decoder's own.  There is no caller-class answer for the
    undecodable photo itself. *)
Theorem undecodable_photo_is_server_error
    (rev : revision) (cfg : config) (w : world) (req : request) (d : disk)
    (f : upload) (message : string) :
  file req = Some f ->
  sharp_decode w (up_bytes f) = Fails message ->
  let seen := Fs.create (workDir_of cfg w) d in
  let name := sanitize (Js.opt_or_else (body_name req) "") in
  let answer := response_of rev cfg w req d in
  (name = "" -> answer = Some (Json 400 "Name is required")) /\
  (name <> "" -> exists m, answer = Some (Json 500 m)) /\
  (name <> "" ->
   Fs.pathExists (TEMPLATE_VIDEO cfg) seen = true ->
   Fs.pathExists (FONT_FILE cfg) seen = true ->
   fs_copy w = Done ->
   fs_readFile w = Done ->
     answer = Some (Json 500 (Js.or_else message "Server error"))).
Proof.
  intros Hf Hd. cbv zeta.
  repeat split; intros.
  all: try match goal with H : _ <> "" |- _ => apply truthy_true in H end.
  all: try match goal with H : _ = "" |- _ => apply truthy_false in H end.
  all: handler_run; try reflexivity; try congruence; eauto.
Qed.

Lemma undecodable_photo_is_server_error_witness :
  response_of Plain Sample.cfg Sample.fine Sample.req_text_file Sample.disk0
  = Some (Json 500 (Js.or_else "Input buffer contains unsupported image format"
                               "Server error")).
Proof.
  pose proof (undecodable_photo_is_server_error Plain Sample.cfg Sample.fine
                Sample.req_text_file Sample.disk0 Sample.text_file
                "Input buffer contains unsupported image format"
                eq_refl eq_refl) as H.
  cbv zeta in H. destruct H as (_ & _ & H).
  apply H; try reflexivity. intro E; vm_compute in E; discriminate.
Defined.

Lemma render_error_message_truthy
    (rev : revision) (err_message : string) (stderr : option string) :
  Js.or_else (render_error_message rev err_message stderr) "Server error"
  = render_error_message rev err_message stderr.
Proof.
  destruct rev; unfold render_error_message; [reflexivity|].
  unfold Js.or_else.
  destruct (Js.truthy (Js.opt_or_else stderr err_message)) eqn:T.
  - now rewrite T.
  - reflexivity.
Qed.

(** C2, as stated, fails: the diagnostic output of the engine is the
    message of the answer. *)
Lemma render_failure_discloses_diagnostic :
  ffmpeg_run Sample.render_fails
    (planned_render Sample.cfg Sample.render_fails (sanitize "Jane Doe"))
  = {| ff_lines := [Sample.diagnostic];
       ff_exit := FfError "ffmpeg exited with code 1" (Some Sample.diagnostic) |} /\
  response_of Plain Sample.cfg Sample.render_fails Sample.req_ok Sample.disk0
  = Some (Json 500 ("ffmpeg error: " ++ Sample.diagnostic)) /\
  response_of Verbose Sample.cfg Sample.render_fails Sample.req_ok Sample.disk0
  = Some (Json 500 Sample.diagnostic) /\
  (forall r message,
     response_of r Sample.cfg Sample.render_fails Sample.req_ok Sample.disk0
     = Some (Json 500 message) ->
     includes Sample.diagnostic message = true).
Proof.
  repeat split.
  intros [] message H; vm_compute in H; injection H as <-; reflexivity.
Qed.

(** C2, amended: when the render ends with an error, the answer has status
    500 and its message is the text the promise was rejected with: the
    diagnostic output of the engine when there is some, else the message of
    the engine's error (preceded by [ffmpeg error: ] in [api/index.js]).
    The same text is written to the server's console. *)
Theorem render_failure_is_reported
    (rev : revision) (cfg : config) (w : world) (req : request) (d : disk)
    (f : upload) (err_message : string) (stderr : option string) :
  let seen := Fs.create (workDir_of cfg w) d in
  let name := sanitize (Js.opt_or_else (body_name req) "") in
  let text := render_error_message rev err_message stderr in
  file req = Some f ->
  name <> "" ->
  Fs.pathExists (TEMPLATE_VIDEO cfg) seen = true ->
  Fs.pathExists (FONT_FILE cfg) seen = true ->
  fs_copy w = Done ->
  fs_readFile w = Done ->
  sharp_decode w (up_bytes f) = Done ->
  sharp_write w = Done ->
  ff_exit (ffmpeg_run w (planned_render cfg w name)) = FfError err_message stderr ->
  response_of rev cfg w req d = Some (Json 500 text) /\
  In (Console ErrorLevel ["generate error"; text]) (events_of rev cfg w req d) /\
  (forall diag, stderr = Some diag -> diag <> "" ->
     text = match rev with
            | Plain => "ffmpeg error: " ++ diag
            | Verbose => diag
            end).
Proof.
  cbv zeta. intros Hf Hn Ht Hfont Hc Hr Hd Hw Hx.
  apply truthy_true in Hn.
  split; [| split].
  - handler_run; rewrite ?render_error_message_truthy; reflexivity.
  - handler_run; rewrite ?render_error_message_truthy; in_trace.
  - intros diag -> Hdiag. apply truthy_true in Hdiag.
    destruct rev; cbn; unfold Js.or_else; now rewrite ?Hdiag.
Qed.

Lemma render_failure_is_reported_witness :
  response_of Plain Sample.cfg Sample.render_fails Sample.req_ok Sample.disk0
  = Some (Json 500 (render_error_message Plain "ffmpeg exited with code 1"
                      (Some Sample.diagnostic))).
Proof.
  pose proof (render_failure_is_reported Plain Sample.cfg Sample.render_fails
                Sample.req_ok Sample.disk0 Sample.photo
                "ffmpeg exited with code 1" (Some Sample.diagnostic)) as H.
  cbv zeta in H.
  apply H; try reflexivity. intro E; vm_compute in E; discriminate.
Defined.

(* ================================================================== *)
(** ** What is handed to the compositor and to the render engine *)
(* ================================================================== *)

Lemma line_events_console (requestId : string) (lines : list string) (e : event) :
  In e (line_events requestId lines) -> exists args, e = Console LogLevel args.
Proof.
  unfold line_events. rewrite in_map_iff. intros (line & <- & _). eauto.
Qed.

(** Case analysis on the membership of an event in the trace of a run. *)
Ltac trace_inv H :=
  rewrite ?in_app_iff in H; cbn [In] in H;
  repeat match type of H with
         | _ \/ _ => destruct H as [H | H]
         end;
  try contradiction; try discriminate;
  try (apply line_events_console in H; destruct H as [? H]; discriminate).

Lemma ffmpeg_event_is_planned
    (rev : revision) (cfg : config) (w : world) (req : request) (d : disk)
    (job : ffmpeg_job) :
  In (Ffmpeg job) (events_of rev cfg w req d) ->
  job = planned_render cfg w (sanitize (Js.opt_or_else (body_name req) "")).
Proof.
  handler_run; intros H; trace_inv H; now injection H as <-.
Qed.

Lemma sharp_event_is_overlay
    (rev : revision) (cfg : config) (w : world) (req : request) (d : disk)
    (job : sharp_job) :
  In (Sharp job) (events_of rev cfg w req d) ->
  exists f, file req = Some f /\
    job = overlay_job (up_bytes f) 600
            (path_join cfg (workDir_of cfg w) "overlay_600.png").
Proof.
  handler_run; intros H; trace_inv H; injection H as <-; eauto.
Qed.

(** C8: the overlay is placed at (620 - 300, 425 - 300) = (320, 125) on the
    canvas of 1240 by 1748, and the text is drawn with font size 70 at
    [x = 620 - text_w/2], [y = 820].  The filter graph handed to the render
    engine is the fixed text below around the escaped font path of the
    workspace and the escaped sanitized name: nothing else of the request
    enters it. *)
Theorem placement_is_fixed
    (rev : revision) (cfg : config) (w : world) (req : request) (d : disk)
    (job : ffmpeg_job) :
  In (Ffmpeg job) (events_of rev cfg w req d) ->
  let font := path_join cfg (workDir_of cfg w) "Montserrat-Bold.ttf" in
  let name := sanitize (Js.opt_or_else (body_name req) "") in
  job = planned_render cfg w name /\
  (overlayX, overlayY) = (620 - 300, 425 - 300) /\
  (overlayX, overlayY) = (320, 125) /\
  (CANVAS_W, CANVAS_H) = (1240, 1748) /\
  drawText font name
  = "drawtext=fontfile='" ++ fontPathEscapedForFilter font
    ++ "':text='" ++ safeName name
    ++ "':fontcolor=#274245:fontsize=70:x=620-text_w/2:y=820" /\
  complexFilter job
  = "[0:v]scale=1240:1748:force_original_aspect_ratio=decrease,"
    ++ "pad=1240:1748:(ow-iw)/2:(oh-ih)/2:black,setsar=1[base];"
    ++ "[1:v]format=rgba[ovr];"
    ++ "[base][ovr]overlay=320:125:format=auto[tmp];"
    ++ "[tmp]" ++ drawText font name ++ ",format=yuv420p[v]".
Proof.
  intros H. apply ffmpeg_event_is_planned in H. subst job.
  cbv zeta. repeat split.
Qed.

Lemma placement_is_fixed_witness :
  complexFilter
    (planned_render Sample.cfg Sample.fine (sanitize "Jane Doe"))
  = "[0:v]scale=1240:1748:force_original_aspect_ratio=decrease,"
    ++ "pad=1240:1748:(ow-iw)/2:(oh-ih)/2:black,setsar=1[base];"
    ++ "[1:v]format=rgba[ovr];"
    ++ "[base][ovr]overlay=320:125:format=auto[tmp];"
    ++ "[tmp]drawtext=fontfile='/tmp/work/1b4e28ba/Montserrat-Bold.ttf'"
    ++ ":text='JANE DOE':fontcolor=#274245:fontsize=70:x=620-text_w/2:y=820"
    ++ ",format=yuv420p[v]".
Proof.
  assert (H : In (Ffmpeg (planned_render Sample.cfg Sample.fine (sanitize "Jane Doe")))
                 (events_of Plain Sample.cfg Sample.fine Sample.req_ok Sample.disk0)).
  { vm_compute. tauto. }
  pose proof (placement_is_fixed Plain Sample.cfg Sample.fine Sample.req_ok
                Sample.disk0 _ H) as P.
  cbv zeta in P. destruct P as (_ & _ & _ & _ & _ & P).
  rewrite P. reflexivity.
Defined.

(** C9, as stated, fails on the radius of the ring: the stroke of width 10
    follows the circle of radius 295, so it covers the radii from 290 to
    300 and its outer radius is 300, the radius of the mask. *)
Lemma ring_outer_radius_is_300 :
  circle_r (borderSvg 600) = 295 /\
  circle_stroke_width (borderSvg 600) = Some 10 /\
  stroke_outer_radius (borderSvg 600) = 300 /\
  stroke_outer_radius (borderSvg 600) <> 295.
Proof. repeat split. discriminate. Qed.

(** The picture the overlay job writes, pixel by pixel: 600 by 600 with
    an alpha channel; transparent outside the circle of radius 300 about
    the centre; the ring colour between the radii 290 and 300; the photo
    inside.  [far] is four times the squared distance of the centre of the
    pixel from the centre of the picture. *)
Lemma overlay_picture (bytes : list Byte.byte) (path : string)
    (alpha : bool) (shows : Z -> Z -> bool) :
  exists out,
    rendered (overlay_job bytes 600 path) alpha shows = Some out /\
    (pic_width out, pic_height out) = (600, 600) /\
    pic_alpha out = true /\
    forall i j, 0 <= i < 600 -> 0 <= j < 600 ->
      let far := sq (2 * i + 1 - 600) + sq (2 * j + 1 - 600) in
      (sq 600 < far -> pic_at out i j = Clear) /\
      (sq 580 <= far <= sq 600 -> pic_at out i j = Paint "#ff9933") /\
      (far < sq 580 -> pic_at out i j = if shows i j then Photo else Clear).
Proof.
  eexists. split; [reflexivity|].
  split; [reflexivity|]. split; [reflexivity|].
  intros i j Hi Hj. cbv zeta.
  unfold encoded, composited, cover, overlay_job, pic_at.
  cbn [output_format composite resize_width resize_height fold_left fst snd].
  unfold svg_at, in_view, stroked, filled, spread.
  cbn [circleSvg borderSvg svg_width svg_height circle_cx circle_cy circle_r
       circle_fill circle_stroke circle_stroke_width].
  change (600 / 2) with 300. change (2 * 300) with 600.
  change (2 * (300 - 5) - 10) with 580. change (2 * (300 - 5) + 10) with 600.
  change (Z.max 0 580) with 580.
  change (String.eqb "#fff" "none") with false.
  change (String.eqb "none" "none") with true.
  cbn [negb andb].
  set (far := sq (2 * i + 1 - 600) + sq (2 * j + 1 - 600)).
  assert (B : (Z.leb 0 i && Z.ltb i 600 && Z.leb 0 j && Z.ltb j 600)%bool = true).
  { rewrite !andb_true_iff, !Z.leb_le, !Z.ltb_lt. lia. }
  rewrite B. cbn [andb].
  change (sq 600) with 360000. change (sq 580) with 336400.
  repeat split; intros H.
  - destruct (Z.leb_spec far 360000); [lia|].
    destruct (Z.leb_spec 336400 far); cbn; reflexivity.
  - destruct (Z.leb_spec far 360000); [|lia].
    destruct (Z.leb_spec 336400 far); [|lia]. reflexivity.
  - destruct (Z.leb_spec far 360000); [|lia].
    destruct (Z.leb_spec 336400 far); [lia|]. cbn.
    destruct (shows i j); reflexivity.
Qed.

(** C9, amended: the compositor is given the bytes of the uploaded photo;
    it resizes with a cover fit to 600 by 600; it applies an alpha mask
    (blend [dest-in] with the filled circle of radius 300 about (300, 300))
    so that only the circular region of radius 300 is opaque; it
    composites on top (blend [over]) a ring in the colour #ff9933 stroked
    with width 10 along the circle of radius 295, that is between the radii
    290 and 300, its outer radius being 300; it encodes the result as a
    PNG with an alpha channel; and it writes it to [overlay_600.png] inside
    the workspace. *)
Theorem overlay_is_ringed_disc
    (rev : revision) (cfg : config) (w : world) (req : request) (d : disk)
    (job : sharp_job) :
  In (Sharp job) (events_of rev cfg w req d) ->
  exists (f : upload) (mask ring : svg),
    file req = Some f /\
    sharp_input job = up_bytes f /\
    (resize_width job, resize_height job, resize_fit job) = (600, 600, Cover) /\
    composite job = [(mask, DestIn); (ring, Over)] /\
    (svg_width mask, svg_height mask) = (600, 600) /\
    (circle_cx mask, circle_cy mask, circle_r mask) = (300, 300, 300) /\
    (circle_fill mask, circle_stroke mask) = ("#fff", None) /\
    (svg_width ring, svg_height ring) = (600, 600) /\
    (circle_cx ring, circle_cy ring, circle_r ring) = (300, 300, 295) /\
    (circle_fill ring, circle_stroke ring, circle_stroke_width ring)
    = ("none", Some "#ff9933", Some 10) /\
    (stroke_inner_radius ring, stroke_outer_radius ring) = (290, 300) /\
    output_format job = Png /\
    toFile job = path_join cfg (workDir_of cfg w) "overlay_600.png" /\
    Fs.inside cfg (workDir_of cfg w) (toFile job) = true /\
    (forall (alpha : bool) (shows : Z -> Z -> bool),
       exists out,
         rendered job alpha shows = Some out /\
         (pic_width out, pic_height out) = (600, 600) /\
         pic_alpha out = true /\
         forall i j, 0 <= i < 600 -> 0 <= j < 600 ->
           let far := sq (2 * i + 1 - 600) + sq (2 * j + 1 - 600) in
           (sq 600 < far -> pic_at out i j = Clear) /\
           (sq 580 <= far <= sq 600 -> pic_at out i j = Paint "#ff9933") /\
           (far < sq 580 ->
              pic_at out i j = if shows i j then Photo else Clear)).
Proof.
  intros H. apply sharp_event_is_overlay in H as (f & Hf & ->).
  exists f, (circleSvg 600), (borderSvg 600).
  repeat match goal with |- _ /\ _ => split end;
    try reflexivity; try assumption.
  - apply inside_path_join.
  - intros alpha shows. apply overlay_picture.
Qed.

Lemma overlay_is_ringed_disc_witness :
  exists (f : upload) (ring : svg) (out : picture),
    file Sample.req_ok = Some f /\
    (stroke_inner_radius ring, stroke_outer_radius ring) = (290, 300) /\
    pic_alpha out = true /\
    pic_at out 0 0 = Clear /\
    pic_at out 300 4 = Paint "#ff9933".
Proof.
  assert (H : In (Sharp (overlay_job (up_bytes Sample.photo) 600
                           "/tmp/work/1b4e28ba/overlay_600.png"))
                 (events_of Plain Sample.cfg Sample.fine Sample.req_ok Sample.disk0)).
  { vm_compute. tauto. }
  destruct (overlay_is_ringed_disc Plain Sample.cfg Sample.fine Sample.req_ok
              Sample.disk0 _ H)
    as (f & mask & ring & Hf & _ & _ & _ & _ & _ & _ & _ & _ & _ & Hr & _ & _
        & _ & P).
  destruct (P false (fun _ _ => true)) as (out & _ & _ & Ha & Hat).
  exists f, ring, out. repeat split; try assumption.
  - apply (Hat 0 0); [lia | lia | reflexivity].
  - apply (Hat 300 4); [lia | lia | vm_compute; split; discriminate].
Defined.

(* ================================================================== *)
(** ** Cleaning up *)
(* ================================================================== *)

(** Every way out of the handler removes the workspace: nothing of it is
    on the disk when the request is over. *)
Lemma workspace_destroyed
    (rev : revision) (cfg : config) (w : world) (req : request) (d : disk)
    (p : string) :
  In p (disk_after rev cfg w req d) ->
  Fs.inside cfg (workDir_of cfg w) p = false.
Proof.
  handler_run; intros H; rewrite ?In_remove in H; tauto.
Qed.

(** No failing way out removes the upload. *)
Lemma failure_keeps_upload
    (rev : revision) (cfg : config) (w : world) (req : request) (d : disk)
    (f : upload) (status : Z) (message : string) :
  file req = Some f ->
  In (up_path f) d ->
  Fs.inside cfg (workDir_of cfg w) (up_path f) = false ->
  response_of rev cfg w req d = Some (Json status message) ->
  In (up_path f) (disk_after rev cfg w req d).
Proof.
  intros Hf Hin Hout.
  handler_run; intros H; try discriminate.
  all: rewrite ?In_remove; repeat split; auto using In_create.
Qed.

(** C1 at a request that fails: a photo sent without a name is answered
    with the name error, the workspace is gone, and the uploaded photo is
    still on the disk; likewise for a photo that cannot be decoded.  The
    request that succeeds does remove its upload.  Both copies of the
    handler behave so. *)
Theorem failed_request_keeps_upload :
  forall rev : revision,
  let after r := disk_after rev Sample.cfg Sample.fine r Sample.disk0 in
  let workDir := workDir_of Sample.cfg Sample.fine in
  (response_of rev Sample.cfg Sample.fine Sample.req_no_name Sample.disk0
   = Some (Json 400 "Name is required") /\
   Fs.pathExists workDir (after Sample.req_no_name) = false /\
   Fs.pathExists "/tmp/uploads/7d1c.jpg" (after Sample.req_no_name) = true) /\
  (response_of rev Sample.cfg Sample.fine Sample.req_text_file Sample.disk0
   = Some (Json 500 "Input buffer contains unsupported image format") /\
   Fs.pathExists workDir (after Sample.req_text_file) = false /\
   Fs.pathExists "/tmp/uploads/90ab.jpg" (after Sample.req_text_file) = true) /\
  (response_of rev Sample.cfg Sample.fine Sample.req_ok Sample.disk0
   = Some (Download "/tmp/work/1b4e28ba/output.mp4" "My_Certificate.mp4") /\
   Fs.pathExists workDir (after Sample.req_ok) = false /\
   Fs.pathExists "/tmp/uploads/7d1c.jpg" (after Sample.req_ok) = false).
Proof. intros []; cbv zeta; repeat split. Qed.

(* ================================================================== *)
(** ** Escaping for the filter graph *)
(* ================================================================== *)

(** Replacing [c] by backslash-[c] leaves every [c] behind a backslash. *)
Lemma guarded_replace_all (c : ascii) (b : bool) (s : string) :
  c <> Js.backslash ->
  guarded c b (Js.replace_all c (String Js.backslash (String c "")) s) = true.
Proof.
  intros Hc. revert b. induction s as [|d r IH]; intros b; [reflexivity|].
  cbn [Js.replace_all]. destruct (Ascii.eqb d c) eqn:E.
  - cbn [append guarded].
    rewrite Ascii.eqb_refl, (proj2 (Ascii.eqb_neq _ _) Hc), IH.
    destruct (Ascii.eqb Js.backslash c) eqn:B; [|reflexivity].
    apply Ascii.eqb_eq in B. now elim Hc.
  - cbn [guarded]. now rewrite E, IH.
Qed.

(** Doing the same for another character [q] afterwards does not undo it. *)
Lemma guarded_replace_other (c q : ascii) (b : bool) (s : string) :
  c <> q -> c <> Js.backslash -> q <> Js.backslash ->
  guarded c b s = true ->
  guarded c b (Js.replace_all q (String Js.backslash (String q "")) s) = true.
Proof.
  intros Hcq Hc Hq. revert b. induction s as [|d r IH]; intros b; [reflexivity|].
  cbn [Js.replace_all guarded]. intros H.
  apply andb_true_iff in H as [Hd Hr].
  destruct (Ascii.eqb d q) eqn:E.
  - apply Ascii.eqb_eq in E. subst d.
    cbn [append guarded].
    rewrite (proj2 (Ascii.eqb_neq Js.backslash c)) by congruence.
    rewrite (proj2 (Ascii.eqb_neq q c)) by congruence.
    cbn [negb orb andb].
    rewrite (proj2 (Ascii.eqb_neq q Js.backslash)) in * by congruence.
    now apply IH.
  - cbn [guarded]. rewrite Hd. now apply IH.
Qed.

Lemma all_chars_app (p : ascii -> bool) (a b : string) :
  Js.all_chars p (a ++ b) = (Js.all_chars p a && Js.all_chars p b)%bool.
Proof.
  induction a as [|x r IH]; cbn; [reflexivity|].
  now rewrite IH, andb_assoc.
Qed.

Lemma replace_all_gone (c : ascii) (by_ : string) (s : string) :
  Js.all_chars (fun d => negb (Ascii.eqb d c)) by_ = true ->
  Js.all_chars (fun d => negb (Ascii.eqb d c)) (Js.replace_all c by_ s) = true.
Proof.
  intros Hb. induction s as [|d r IH]; [reflexivity|].
  cbn [Js.replace_all]. destruct (Ascii.eqb d c) eqn:E.
  - now rewrite all_chars_app, Hb, IH.
  - cbn. now rewrite E, IH.
Qed.

(** The part of C6 that is a fact about the strings alone: in the text
    placed between the quotes of [text=] every single quote of the name
    has a backslash before it; in the font path no backslash of the path is
    left, and every colon and every single quote has a backslash before
    it. *)
Lemma escaping_inserts_backslashes (fontCopyPath name : string) :
  guarded Js.squote false (safeName name) = true /\
  Js.all_chars (fun d => negb (Ascii.eqb d Js.backslash))
    (fontPathForFF fontCopyPath) = true /\
  guarded Js.colon false (fontPathEscapedForFilter fontCopyPath) = true /\
  guarded Js.squote false (fontPathEscapedForFilter fontCopyPath) = true.
Proof.
  repeat split.
  - apply guarded_replace_all. discriminate.
  - apply replace_all_gone. reflexivity.
  - apply guarded_replace_other; try discriminate.
    apply guarded_replace_all. discriminate.
  - apply guarded_replace_all. discriminate.
Qed.

(** C6 at a name that defeats the escaping: the name's own backslash
    stands before the backslash that the escaping inserts, so the single
    quote after them closes the text; what follows the comma is read as
    further stages of the graph.  With either reading of a quoted span the
    graph has nine stages instead of the seven it has for a plain name, two
    of them made of the name's text. *)
Theorem quote_after_backslash_breaks_out :
  let name := sanitize "\',x,y=\'z" in
  name = "\',X,Y=\'Z" /\
  safeName name = "\\',X,Y=\\'Z" /\
  guarded Js.squote false (safeName name) = true /\
  (forall literal,
     stages literal (filterComplex Sample.fontCopyPath (sanitize "Anna"))
     = [ "[0:v]scale=1240:1748:force_original_aspect_ratio=decrease";
         "pad=1240:1748:(ow-iw)/2:(oh-ih)/2:black";
         "setsar=1[base]";
         "[1:v]format=rgba[ovr]";
         "[base][ovr]overlay=320:125:format=auto[tmp]";
         "[tmp]drawtext=fontfile='/tmp/work/1b4e28ba/Montserrat-Bold.ttf'"
           ++ ":text='ANNA':fontcolor=#274245:fontsize=70:x=620-text_w/2:y=820";
         "format=yuv420p[v]" ]) /\
  (forall literal,
     stages literal (filterComplex Sample.fontCopyPath name)
     = [ "[0:v]scale=1240:1748:force_original_aspect_ratio=decrease";
         "pad=1240:1748:(ow-iw)/2:(oh-ih)/2:black";
         "setsar=1[base]";
         "[1:v]format=rgba[ovr]";
         "[base][ovr]overlay=320:125:format=auto[tmp]";
         "[tmp]drawtext=fontfile='/tmp/work/1b4e28ba/Montserrat-Bold.ttf'"
           ++ ":text='\\'";
         "X";
         "Y=\\'Z':fontcolor=#274245:fontsize=70:x=620-text_w/2:y=820";
         "format=yuv420p[v]" ]).
Proof.
  cbv zeta. repeat split; intros []; reflexivity.
Qed.

(** Under the engine's own reading of a quoted span the backslash before a
    quote has no effect at all: the quote of a name such as O'Brien closes
    the text, the next quote opens a span that runs to the end of the
    graph, and the final [format] stage is lost in it. *)
Lemma plain_quote_closes_text :
  safeName (sanitize "O'Brien") = "O\'BRIEN" /\
  stages true (filterComplex Sample.fontCopyPath (sanitize "O'Brien"))
  = [ "[0:v]scale=1240:1748:force_original_aspect_ratio=decrease";
      "pad=1240:1748:(ow-iw)/2:(oh-ih)/2:black";
      "setsar=1[base]";
      "[1:v]format=rgba[ovr]";
      "[base][ovr]overlay=320:125:format=auto[tmp]";
      "[tmp]drawtext=fontfile='/tmp/work/1b4e28ba/Montserrat-Bold.ttf'"
        ++ ":text='O\'BRIEN':fontcolor=#274245:fontsize=70:x=620-text_w/2:y=820"
        ++ ",format=yuv420p[v]" ].
Proof. split; reflexivity. Qed.

(* ================================================================== *)
(** ** Every request is answered *)
(* ================================================================== *)

(** Whatever fails on the way, the handler sends exactly one answer: what
    is thrown inside the [try] block is caught. *)
Lemma generate_always_answers
    (rev : revision) (cfg : config) (w : world) (req : request) (d : disk) :
  exists r, response_of rev cfg w req d = Some r.
Proof. handler_run; eauto. Qed.

(** After the four checks the answer is never a caller error, whatever the
    bytes of the photo are. *)
Lemma no_caller_error_after_validation
    (rev : revision) (cfg : config) (w : world) (req : request) (d : disk)
    (f : upload) (message : string) :
  file req = Some f ->
  sanitize (Js.opt_or_else (body_name req) "") <> "" ->
  Fs.pathExists (TEMPLATE_VIDEO cfg) (Fs.create (workDir_of cfg w) d) = true ->
  Fs.pathExists (FONT_FILE cfg) (Fs.create (workDir_of cfg w) d) = true ->
  response_of rev cfg w req d <> Some (Json 400 message).
Proof.
  intros Hf Hn Ht Hfont. apply truthy_true in Hn.
  handler_run; discriminate.
Qed.

(* ================================================================== *)
(** * Further properties of the handler *)
(* ================================================================== *)

Lemma inside_refl (cfg : config) (dir : string) : Fs.inside cfg dir dir = true.
Proof. unfold Fs.inside. now rewrite String.eqb_refl. Qed.

Lemma In_create_iff (p q : string) (d : disk) :
  In p (Fs.create q d) <-> p = q \/ In p d.
Proof.
  unfold Fs.create. destruct (Fs.pathExists q d) eqn:E; cbn [In].
  - apply pathExists_In in E. split; [now right | intros [-> | H]; assumption].
  - split; intros [H | H]; auto.
Qed.

(** Whatever the outcome, when the request is over the workspace directory
    does not exist and nothing that was put into it is left. *)
Theorem workspace_is_gone
    (rev : revision) (cfg : config) (w : world) (req : request) (d : disk)
    (leaf : string) :
  Fs.pathExists (workDir_of cfg w) (disk_after rev cfg w req d) = false /\
  Fs.pathExists (path_join cfg (workDir_of cfg w) leaf)
    (disk_after rev cfg w req d) = false.
Proof.
  split.
  - destruct (Fs.pathExists _ _) eqn:E; [|reflexivity].
    apply pathExists_In, workspace_destroyed in E.
    now rewrite inside_refl in E.
  - destruct (Fs.pathExists _ _) eqn:E; [|reflexivity].
    apply pathExists_In, workspace_destroyed in E.
    now rewrite inside_path_join in E.
Qed.

(** What the handler leaves alone on the disk. *)
Lemma paths_elsewhere_kept
    (rev : revision) (cfg : config) (w : world) (req : request) (d : disk)
    (p : string) :
  Fs.inside cfg (workDir_of cfg w) p = false ->
  (forall f, file req = Some f -> Fs.inside cfg (up_path f) p = false) ->
  (In p (disk_after rev cfg w req d) <-> In p d).
Proof.
  intros Hw Hu.
  assert (Hne : p <> workDir_of cfg w).
  { intros ->. now rewrite inside_refl in Hw. }
  assert (Hleaf : forall leaf, p <> path_join cfg (workDir_of cfg w) leaf).
  { intros leaf ->. now rewrite inside_path_join in Hw. }
  destruct (file req) as [f|] eqn:Hf.
  - specialize (Hu f eq_refl).
    handler_run; rewrite ?In_remove, ?In_create_iff; intuition congruence || eauto.
    all: try (exfalso; eapply Hleaf; eassumption).
  - clear Hu.
    handler_run; rewrite ?In_remove, ?In_create_iff; intuition congruence.
Qed.

(** The handler changes nothing outside its workspace and its upload: a
    path that lies in neither exists afterwards exactly when it existed
    before.  In particular the template video and the font are never
    removed or created. *)
Theorem other_paths_untouched
    (rev : revision) (cfg : config) (w : world) (req : request) (d : disk)
    (p : string) :
  Fs.inside cfg (workDir_of cfg w) p = false ->
  (forall f, file req = Some f -> Fs.inside cfg (up_path f) p = false) ->
  (In p (disk_after rev cfg w req d) <-> In p d).
Proof. exact (paths_elsewhere_kept rev cfg w req d p). Qed.

(** The request ends in the download exactly when the workspace could be
    created, the name field converts to text, a photo is attached, the
    sanitized name is not empty, both assets exist and every step of the
    pipeline succeeds: the download implies all of these, and all of these
    together give the download, the file sent being [output.mp4] of the
    workspace under the name [My_Certificate.mp4]. *)
Theorem download_iff_all_succeed
    (rev : revision) (cfg : config) (env : environment) (sub : submission)
    (d : disk) :
  let w := outside env in
  let seen := Fs.create (workDir_of cfg w) d in
  let all_succeed :=
    exists f raw,
      fs_ensureDir env = Done /\
      name_text (name_field sub) = Some raw /\
      attachment sub = Some f /\
      sanitize raw <> "" /\
      Fs.pathExists (TEMPLATE_VIDEO cfg) seen = true /\
      Fs.pathExists (FONT_FILE cfg) seen = true /\
      fs_copy w = Done /\
      fs_readFile w = Done /\
      sharp_decode w (up_bytes f) = Done /\
      sharp_write w = Done /\
      ff_exit (ffmpeg_run w (planned_render cfg w (sanitize raw))) = FfEnd in
  ((exists p n, answer rev cfg env sub d = Some (Download p n)) ->
   all_succeed) /\
  (all_succeed ->
   answer rev cfg env sub d
   = Some (Download (path_join cfg (workDir_of cfg w) "output.mp4")
             "My_Certificate.mp4")).
Proof.
  cbv zeta. split.
  - intros (p & n & H). revert H.
    handler_run; intros H; try discriminate.
    all: do 2 eexists; repeat split; try reflexivity; try eassumption.
    all: try (apply truthy_true, negb_false_iff; assumption).
    all: try (apply negb_false_iff; assumption).
  - intros (f & raw & Hdir & Hraw & Hf & Hn & Ht & Hfont & Hc & Hr & Hd & Hw & Hx).
    apply truthy_true in Hn.
    handler_run; reflexivity.
Qed.

Lemma download_iff_all_succeed_witness :
  answer Plain Sample.cfg Field.engine Field.repeated Sample.disk0
  = Some (Download "/tmp/work/1b4e28ba/output.mp4" "My_Certificate.mp4").
Proof.
  apply (proj2 (download_iff_all_succeed Plain Sample.cfg Field.engine
                  Field.repeated Sample.disk0)).
  exists Sample.photo, "Ann,Lee".
  repeat split; try reflexivity.
  intro E; vm_compute in E; discriminate.
Defined.

(** Every request for which the workspace could be created is answered,
    whatever its name field is, and the answer is the download, one of the
    two caller errors with status 400, or an error with status 500: nothing
    thrown inside the [try] block escapes.  The workspace is created before
    the [try] block: when that fails what is thrown escapes the handler,
    which answers nothing, removes nothing and leaves the disk as it
    was. *)
Theorem every_request_is_answered
    (rev : revision) (cfg : config) (env : environment) (sub : submission)
    (d : disk) :
  (fs_ensureDir env = Done ->
   exists r,
     answer rev cfg env sub d = Some r /\
     (r = Download (path_join cfg (workDir_of cfg (outside env)) "output.mp4")
            "My_Certificate.mp4" \/
      r = Json 400 "Photo is required (field name: photo)" \/
      r = Json 400 "Name is required" \/
      exists message, r = Json 500 message)) /\
  (forall e, fs_ensureDir env = Fails e ->
     answer rev cfg env sub d = None /\
     disk_left rev cfg env sub d = d /\
     removals (workDir_of cfg (outside env)) (trace rev cfg env sub d) = 0%nat).
Proof.
  split.
  - intros Hdir.
    handler_run; eexists; (split; [reflexivity|]); eauto 6.
  - intros e Hdir.
    repeat split; handler_run; reflexivity.
Qed.

Lemma every_request_is_answered_witness :
  answer Verbose Sample.cfg Field.no_space Field.repeated Sample.disk0 = None /\
  exists r,
    answer Verbose Sample.cfg Field.engine Field.keyed_without_photo Sample.disk0
    = Some r.
Proof.
  split.
  - apply (proj2 (every_request_is_answered Verbose Sample.cfg Field.no_space
                    Field.repeated Sample.disk0)
             "ENOSPC: no space left on device, mkdir").
    reflexivity.
  - destruct (proj1 (every_request_is_answered Verbose Sample.cfg Field.engine
                       Field.keyed_without_photo Sample.disk0) eq_refl)
      as (r & Hr & _).
    exists r. exact Hr.
Defined.

(** The render is started only after the font was copied, the upload was
    read and the overlay was decoded and written; the compositor only after
    the font was copied and the upload was read. *)
Theorem pipeline_runs_in_order
    (rev : revision) (cfg : config) (w : world) (req : request) (d : disk) :
  ((exists job, In (Sharp job) (events_of rev cfg w req d)) ->
     fs_copy w = Done /\ fs_readFile w = Done) /\
  ((exists job, In (Ffmpeg job) (events_of rev cfg w req d)) ->
     exists f, file req = Some f /\
       fs_copy w = Done /\ fs_readFile w = Done /\
       sharp_decode w (up_bytes f) = Done /\ sharp_write w = Done).
Proof.
  split; intros (job & H); revert H.
  - handler_run; intros H; trace_inv H; auto.
  - handler_run; intros H; trace_inv H; eauto 6.
Qed.

Lemma pipeline_runs_in_order_witness :
  fs_copy Sample.fine = Done /\ fs_readFile Sample.fine = Done.
Proof.
  apply (proj1 (pipeline_runs_in_order Plain Sample.cfg Sample.fine
                  Sample.req_text_file Sample.disk0)).
  eexists. vm_compute. do 5 right. left. reflexivity.
Defined.

Lemma pathExists_remove_self (cfg : config) (p : string) (d : disk) :
  Fs.pathExists p (Fs.remove cfg p d) = false.
Proof.
  destruct (Fs.pathExists _ _) eqn:E; [|reflexivity].
  apply pathExists_In, In_remove in E. destruct E as [_ E].
  now rewrite inside_refl in E.
Qed.

(** After a download the uploaded photo is removed as well. *)
Theorem success_removes_upload
    (rev : revision) (cfg : config) (w : world) (req : request) (d : disk)
    (f : upload) (p n : string) :
  file req = Some f ->
  response_of rev cfg w req d = Some (Download p n) ->
  Fs.pathExists (up_path f) (disk_after rev cfg w req d) = false.
Proof.
  intros Hf.
  handler_run; intros H; try discriminate.
  all: first [apply pathExists_remove_self | assumption].
Qed.

Lemma success_removes_upload_witness :
  Fs.pathExists (up_path Sample.photo)
    (disk_after Verbose Sample.cfg Sample.fine Sample.req_ok Sample.disk0) = false.
Proof.
  apply (success_removes_upload Verbose Sample.cfg Sample.fine Sample.req_ok
           Sample.disk0 Sample.photo "/tmp/work/1b4e28ba/output.mp4"
           "My_Certificate.mp4"); reflexivity.
Defined.





(** The two copies of the handler leave the same disk and answer with the
    same status when the upload is where multer stored it; they answer
    alike except for the text of a render failure. *)
Theorem copies_agree
    (cfg : config) (w : world) (req : request) (d : disk) :
  (forall f, file req = Some f ->
     In (up_path f) d /\ Fs.inside cfg (workDir_of cfg w) (up_path f) = false) ->
  disk_after Plain cfg w req d = disk_after Verbose cfg w req d /\
  option_map status_of (response_of Plain cfg w req d)
  = option_map status_of (response_of Verbose cfg w req d) /\
  ((forall job e s, ff_exit (ffmpeg_run w job) <> FfError e s) ->
     response_of Plain cfg w req d = response_of Verbose cfg w req d).
Proof.
  intros Hu.
  destruct (file req) as [f|] eqn:Hf.
  - destruct (Hu f eq_refl) as [Hin Hout]. clear Hu.
    repeat split.
    + handler_run; try reflexivity.
      all: exfalso.
      all: match goal with
           | H : Fs.pathExists (up_path ?u) ?x = false |- _ =>
               assert (E : In (up_path u) x);
               [| apply pathExists_In in E; congruence]
           end.
      all: apply In_remove; split; [| exact Hout]; auto using In_create.
    + handler_run; reflexivity.
    + intros Hok. handler_run; try reflexivity.
      all: exfalso; eapply Hok; eassumption.
  - repeat split; handler_run; reflexivity.
Qed.

Lemma copies_agree_witness :
  disk_after Plain Sample.cfg Sample.fine Sample.req_ok Sample.disk0
  = disk_after Verbose Sample.cfg Sample.fine Sample.req_ok Sample.disk0.
Proof.
  apply (copies_agree Sample.cfg Sample.fine Sample.req_ok Sample.disk0).
  intros f [= <-]. split; [vm_compute; tauto | reflexivity].
Defined.

(* ================================================================== *)
(** ** Uploads and workspaces in a deployment *)
(* ================================================================== *)

Lemma eqb_app_cancel (a x y : string) :
  String.eqb (a ++ x) (a ++ y) = String.eqb x y.
Proof.
  induction a as [|c r IH]; cbn; [reflexivity|].
  now rewrite Ascii.eqb_refl.
Qed.

Lemma prefix_app_cancel (a x y : string) :
  String.prefix (a ++ x) (a ++ y) = String.prefix x y.
Proof.
  induction a as [|c r IH]; cbn; [reflexivity|].
  destruct (ascii_dec c c) as [_|N]; [exact IH | now elim N].
Qed.

(** Where multer stores a photo, against the workspace of a request. *)
Lemma stored_upload_outside
    (separator : string) (env_TMPDIR : option string) (template font : string)
    (id ext : string) (bytes : list Byte.byte) (w : world) :
  let cfg := deployment separator env_TMPDIR template font in
  Fs.inside cfg (workDir_of cfg w) (up_path (stored_upload cfg id ext bytes))
  = false.
Proof.
  cbv zeta. unfold Fs.inside, workDir_of, stored_upload, path_join, deployment.
  cbn [sep uploadsDir tmpDirRoot up_path].
  rewrite !append_assoc, !eqb_app_cancel, !prefix_app_cancel.
  reflexivity.
Qed.

(** With the directories laid out as the module does, what multer stores
    is never inside the workspace of a request, whatever the identifiers,
    the extension, the separator and [TMPDIR] are. *)
Theorem uploads_outside_workspaces
    (separator : string) (env_TMPDIR : option string) (template font : string)
    (id ext : string) (bytes : list Byte.byte) (w : world) :
  let cfg := deployment separator env_TMPDIR template font in
  Fs.inside cfg (workDir_of cfg w) (up_path (stored_upload cfg id ext bytes))
  = false.
Proof. exact (stored_upload_outside separator env_TMPDIR template font id ext bytes w). Qed.

(** So in every such deployment a request that carries a photo and fails,
    at whatever stage, leaves the stored photo on the disk. *)
Theorem failed_request_leaves_stored_upload
    (rev : revision) (separator : string) (env_TMPDIR : option string)
    (template font : string) (id ext : string) (bytes : list Byte.byte)
    (name : option string) (w : world) (d : disk)
    (status : Z) (message : string) :
  let cfg := deployment separator env_TMPDIR template font in
  let stored := stored_upload cfg id ext bytes in
  let req := {| body_name := name; file := Some stored |} in
  Fs.pathExists (up_path stored) d = true ->
  response_of rev cfg w req d = Some (Json status message) ->
  Fs.pathExists (up_path stored) (disk_after rev cfg w req d) = true.
Proof.
  cbv zeta. intros Hd Hr. apply pathExists_In in Hd. apply pathExists_In.
  eapply failure_keeps_upload; eauto.
  apply stored_upload_outside.
Qed.

Lemma failed_request_leaves_stored_upload_witness :
  Fs.pathExists "/tmp/uploads/7d1c.jpg"
    (disk_after Plain Site.cfg Sample.fine Site.req_blank Site.disk0) = true.
Proof.
  apply (failed_request_leaves_stored_upload Plain "/" None
           "/var/task/media/certificate_vid_mu.mp4"
           "/var/task/media/Montserrat-Bold.ttf" "7d1c" ".jpg"
           [Byte.xff; Byte.xd8; Byte.xff; Byte.xe0] (Some "   ")
           Sample.fine Site.disk0 400 "Name is required");
    reflexivity.
Defined.

(* ================================================================== *)
(** ** More on the sanitized name *)
(* ================================================================== *)

Lemma remove_all_empty_iff (p : ascii -> bool) (s : string) :
  Js.remove_all p s = "" <-> Js.all_chars p s = true.
Proof.
  split; [| apply remove_all_every].
  induction s as [|c r IH]; cbn; [reflexivity|].
  destruct (p c); [exact IH | discriminate].
Qed.

Lemma all_chars_toUpperCase_eq (s : string) :
  Js.all_chars colon_or_dquote (Js.toUpperCase s)
  = Js.all_chars colon_or_dquote s.
Proof.
  induction s as [|c r IH]; cbn; [reflexivity|].
  now rewrite colon_or_dquote_upper_char, IH.
Qed.

(** When the sanitized name is empty. *)
Lemma sanitize_is_empty (s : string) :
  sanitize s = "" <-> Js.all_chars colon_or_dquote (Js.trim s) = true.
Proof.
  unfold sanitize. rewrite sanitizeForDrawText_remove_all, remove_all_empty_iff.
  now rewrite <- toUpperCase_trim, all_chars_toUpperCase_eq.
Qed.

(** The sanitized name is empty exactly when the name, once trimmed, is
    made of colons and double quotes only (the empty name and the blank
    name included). *)
Theorem sanitize_empty_iff (s : string) :
  sanitize s = "" <-> Js.all_chars colon_or_dquote (Js.trim s) = true.
Proof. exact (sanitize_is_empty s). Qed.

(** The name error is the answer exactly to the requests that carry a
    photo and whose name, once trimmed, is made of colons and double quotes
    only. *)
Theorem name_error_iff
    (rev : revision) (cfg : config) (w : world) (req : request) (d : disk) :
  response_of rev cfg w req d = Some (Json 400 "Name is required") <->
  (exists f, file req = Some f) /\
  Js.all_chars colon_or_dquote (Js.trim (Js.opt_or_else (body_name req) "")) = true.
Proof.
  rewrite <- sanitize_is_empty, <- truthy_false.
  split.
  - handler_run; intros H; try discriminate; split; eauto.
    all: now apply negb_true_iff.
  - intros [[f Hf] Hn]. handler_run; reflexivity.
Qed.

Lemma name_error_iff_witness :
  response_of Plain Site.cfg Sample.fine Site.req_blank Site.disk0
  = Some (Json 400 "Name is required").
Proof.
  apply (proj2 (name_error_iff Plain Site.cfg Sample.fine Site.req_blank Site.disk0)).
  split; [eexists; reflexivity | reflexivity].
Defined.

Lemma is_lower_upper_char (c : ascii) : Js.is_lower (Js.upper_char c) = false.
Proof. destruct c as [[] [] [] [] [] [] [] []]; reflexivity. Qed.

Lemma length_toUpperCase (s : string) :
  String.length (Js.toUpperCase s) = String.length s.
Proof. induction s as [|c r IH]; cbn; [reflexivity | now rewrite IH]. Qed.

Lemma length_trimStart (s : string) :
  (String.length (Js.trimStart s) <= String.length s)%nat.
Proof.
  induction s as [|c r IH]; cbn; [lia|].
  destruct (Js.is_ws c); cbn; lia.
Qed.

Lemma length_trimEnd (s : string) :
  (String.length (Js.trimEnd s) <= String.length s)%nat.
Proof.
  induction s as [|c r IH]; cbn; [lia|].
  destruct (Js.trimEnd r) as [|c' r']; [destruct (Js.is_ws c)|]; cbn in *; lia.
Qed.

Lemma length_trim (s : string) :
  (String.length (Js.trim s) <= String.length s)%nat.
Proof.
  unfold Js.trim.
  pose proof (length_trimEnd (Js.trimStart s)). pose proof (length_trimStart s). lia.
Qed.

Lemma length_remove_all (p : ascii -> bool) (s : string) :
  (String.length (Js.remove_all p s) <= String.length s)%nat.
Proof.
  induction s as [|c r IH]; cbn; [lia|].
  destruct (p c); cbn; lia.
Qed.

Lemma all_chars_remove_all_keep (q p : ascii -> bool) (s : string) :
  Js.all_chars q s = true -> Js.all_chars q (Js.remove_all p s) = true.
Proof.
  induction s as [|c r IH]; cbn; [reflexivity|].
  intros H. apply andb_true_iff in H as [Hc Hr].
  destruct (p c); cbn; [auto | now rewrite Hc, IH].
Qed.

Lemma no_lower_toUpperCase (s : string) :
  Js.all_chars (fun c => negb (Js.is_lower c)) (Js.toUpperCase s) = true.
Proof.
  induction s as [|c r IH]; cbn; [reflexivity|].
  now rewrite is_lower_upper_char, IH.
Qed.

(** The sanitized name holds no lower case letter of the ASCII alphabet;
    and the sanitized form of a name made of ASCII characters only is never
    longer than the name. *)
Theorem sanitize_shrinks_and_capitalizes (s : string) :
  Js.all_chars (fun c => negb (Js.is_lower c)) (sanitize s) = true /\
  (Js.all_chars Js.is_ascii s = true ->
   (String.length (sanitize s) <= String.length s)%nat).
Proof.
  unfold sanitize. rewrite sanitizeForDrawText_remove_all. split.
  - apply all_chars_remove_all_keep, all_chars_trim, no_lower_toUpperCase.
  - intros _.
    pose proof (length_remove_all colon_or_dquote (Js.trim (Js.toUpperCase s))).
    pose proof (length_trim (Js.toUpperCase s)).
    rewrite length_toUpperCase in *. lia.
Qed.

Lemma sanitize_shrinks_and_capitalizes_witness :
  (String.length (sanitize " Jane: Doe ") <= String.length " Jane: Doe ")%nat.
Proof.
  apply (proj2 (sanitize_shrinks_and_capitalizes " Jane: Doe ")).
  reflexivity.
Defined.

Lemma trimStart_length_eq (s : string) :
  String.length (Js.trimStart s) = String.length s -> Js.trimStart s = s.
Proof.
  destruct s as [|c r]; cbn; [reflexivity|].
  destruct (Js.is_ws c); [|reflexivity].
  pose proof (length_trimStart r). lia.
Qed.

Lemma trimEnd_length_eq (s : string) :
  String.length (Js.trimEnd s) = String.length s -> Js.trimEnd s = s.
Proof.
  induction s as [|c r IH]; cbn; [reflexivity|].
  pose proof (length_trimEnd r) as L.
  destruct (Js.trimEnd r) as [|c' r'] eqn:E.
  - destruct (Js.is_ws c); cbn; [discriminate|].
    destruct r; cbn; [reflexivity | discriminate].
  - cbn [String.length] in *. intros H. injection H as H. now rewrite (IH H).
Qed.

Lemma trim_length_eq (s : string) :
  String.length (Js.trim s) = String.length s -> Js.trim s = s.
Proof.
  unfold Js.trim. intros H.
  pose proof (length_trimEnd (Js.trimStart s)). pose proof (length_trimStart s).
  assert (E : Js.trimStart s = s) by (apply trimStart_length_eq; lia).
  rewrite E in *. now apply trimEnd_length_eq.
Qed.

(** The names the sanitization leaves as they are: those already in upper
    case, with no blank at either end, and free of colons and double
    quotes. *)
Theorem sanitize_fixed_iff (s : string) :
  sanitize s = s <->
  Js.toUpperCase s = s /\ Js.trim s = s /\
  Js.all_chars (fun c => negb (colon_or_dquote c)) s = true.
Proof.
  split.
  - intros E.
    assert (U : Js.toUpperCase s = s) by (rewrite <- E; apply toUpperCase_sanitize).
    assert (C : Js.all_chars (fun c => negb (colon_or_dquote c)) s = true)
      by (rewrite <- E; apply sanitize_clean).
    repeat split; try assumption.
    apply trim_length_eq.
    unfold sanitize in E. rewrite U, sanitizeForDrawText_remove_all in E.
    pose proof (length_remove_all colon_or_dquote (Js.trim s)) as L.
    rewrite E in L. pose proof (length_trim s). lia.
  - intros (U & T & C). unfold sanitize.
    rewrite U, T, sanitizeForDrawText_remove_all. now apply remove_all_none.
Qed.

Lemma sanitize_fixed_iff_witness :
  Js.toUpperCase "JANE DOE" = "JANE DOE" /\ Js.trim "JANE DOE" = "JANE DOE".
Proof.
  destruct (proj1 (sanitize_fixed_iff "JANE DOE") eq_refl) as (U & T & _).
  split; assumption.
Defined.

(* ================================================================== *)
(** ** Names that cannot alter the filter graph *)
(* ================================================================== *)

Lemma append_nil_r (s : string) : s ++ "" = s.
Proof. induction s as [|c r IH]; cbn; [reflexivity | now rewrite IH]. Qed.

Lemma replace_all_absent (c : ascii) (by_ s : string) :
  Js.all_chars (fun d => negb (Ascii.eqb d c)) s = true ->
  Js.replace_all c by_ s = s.
Proof.
  induction s as [|d r IH]; cbn; [reflexivity|].
  intros H. apply andb_true_iff in H as [Hd Hr].
  apply negb_true_iff in Hd. rewrite Hd. now rewrite IH.
Qed.

Lemma replace_all_keeps (q : ascii -> bool) (c : ascii) (by_ s : string) :
  Js.all_chars q by_ = true ->
  Js.all_chars q s = true ->
  Js.all_chars q (Js.replace_all c by_ s) = true.
Proof.
  intros Hb. induction s as [|d r IH]; cbn; [reflexivity|].
  intros H. apply andb_true_iff in H as [Hd Hr].
  destruct (Ascii.eqb d c).
  - now rewrite all_chars_app, Hb, IH.
  - cbn. now rewrite Hd, IH.
Qed.

(** Inside a quoted span, text without quote and backslash is passed over
    as it is. *)
Lemma scan_quoted_text (literal : bool) (a cur rest : string) :
  Js.all_chars (fun c => negb (Ascii.eqb c Js.squote)
                         && negb (Ascii.eqb c Js.backslash))%bool a = true ->
  scan literal Quoted cur (a ++ rest) = scan literal Quoted (cur ++ a) rest.
Proof.
  revert cur. induction a as [|c r IH]; intros cur H.
  - cbn. now rewrite append_nil_r.
  - cbn in H. apply andb_true_iff in H as [Hc Hr].
    apply andb_true_iff in Hc as [Hq Hb].
    apply negb_true_iff in Hq, Hb.
    cbn [append scan]. rewrite Hq, Hb, andb_false_r.
    rewrite IH by exact Hr. now rewrite append_assoc.
Qed.

(** So is a path in which the colons have been escaped. *)
Lemma scan_escaped_colons (literal : bool) (y cur rest : string) :
  Js.all_chars (fun c => negb (Ascii.eqb c Js.squote)
                         && negb (Ascii.eqb c Js.backslash))%bool y = true ->
  scan literal Quoted cur (Js.replace_all Js.colon "\:" y ++ rest)
  = scan literal Quoted (cur ++ Js.replace_all Js.colon "\:" y) rest.
Proof.
  revert cur. induction y as [|c r IH]; intros cur H.
  - cbn. now rewrite append_nil_r.
  - cbn in H. apply andb_true_iff in H as [Hc Hr].
    apply andb_true_iff in Hc as [Hq Hb].
    apply negb_true_iff in Hq, Hb.
    cbn [Js.replace_all]. destruct (Ascii.eqb c Js.colon) eqn:E.
    + cbn [append scan].
      destruct literal; cbn; rewrite IH by exact Hr;
        now rewrite !append_assoc.
    + cbn [append scan]. rewrite Hq, Hb, andb_false_r.
      rewrite IH by exact Hr. now rewrite append_assoc.
Qed.

Lemma fontPathForFF_no_backslash (p : string) :
  Js.all_chars (fun c => negb (Ascii.eqb c Js.squote)) p = true ->
  Js.all_chars (fun c => negb (Ascii.eqb c Js.squote)
                         && negb (Ascii.eqb c Js.backslash))%bool
    (fontPathForFF p) = true.
Proof.
  unfold fontPathForFF.
  induction p as [|c r IH]; cbn; [reflexivity|].
  intros H. apply andb_true_iff in H as [Hc Hr].
  destruct (Ascii.eqb c Js.backslash) eqn:E; cbn.
  - now apply IH.
  - now rewrite Hc, E, IH.
Qed.

(** A name without single quote and backslash, with a font path without
    single quote, leaves the graph as it was planned: seven stages, the
    sixth being the text-drawing directive with the name between its
    quotes, whichever way quoted spans are read. *)
Theorem plain_names_keep_the_graph
    (literal : bool) (font name : string) :
  Js.all_chars (fun c => negb (Ascii.eqb c Js.squote)) font = true ->
  Js.all_chars (fun c => negb (Ascii.eqb c Js.squote)
                         && negb (Ascii.eqb c Js.backslash))%bool name = true ->
  safeName name = name /\
  stages literal (filterComplex font name)
  = [ "[0:v]scale=1240:1748:force_original_aspect_ratio=decrease";
      "pad=1240:1748:(ow-iw)/2:(oh-ih)/2:black";
      "setsar=1[base]";
      "[1:v]format=rgba[ovr]";
      "[base][ovr]overlay=320:125:format=auto[tmp]";
      "[tmp]" ++ drawText font name;
      "format=yuv420p[v]" ].
Proof.
  intros Hfont Hname.
  assert (Hn : safeName name = name).
  { apply replace_all_absent.
    apply all_chars_In. intros c Hc.
    pose proof (proj1 (all_chars_In _ _) Hname c Hc) as H.
    now apply andb_true_iff in H as [H _]. }
  split; [exact Hn|].
  pose proof (fontPathForFF_no_backslash font Hfont) as Hy.
  assert (He : fontPathEscapedForFilter font
               = Js.replace_all Js.colon "\:" (fontPathForFF font)).
  { apply replace_all_absent, replace_all_keeps; [reflexivity|].
    apply all_chars_In. intros c Hc.
    pose proof (proj1 (all_chars_In _ _) Hy c Hc) as H.
    now apply andb_true_iff in H as [H _]. }
  unfold stages, filterComplex, drawText. rewrite Hn, He.
  change (Js.show CANVAS_W) with "1240".
  change (Js.show CANVAS_H) with "1748".
  change (Js.show overlayX) with "320".
  change (Js.show overlayY) with "125".
  cbn [append scan is_separator Ascii.eqb Bool.eqb orb andb negb
       Js.backslash Js.squote].
  rewrite !append_assoc, scan_escaped_colons by exact Hy.
  cbn [append scan is_separator Ascii.eqb Bool.eqb orb andb negb
       Js.backslash Js.squote].
  rewrite !append_assoc, scan_quoted_text by exact Hname.
  cbn [append scan is_separator Ascii.eqb Bool.eqb orb andb negb
       Js.backslash Js.squote].
  rewrite !append_assoc. reflexivity.
Qed.

Lemma plain_names_keep_the_graph_witness :
  length (stages true (filterComplex Sample.fontCopyPath "JANE, A.")) = 7%nat.
Proof.
  destruct (plain_names_keep_the_graph true Sample.fontCopyPath "JANE, A."
              eq_refl eq_refl) as [_ H].
  rewrite H. reflexivity.
Defined.

(* ================================================================== *)
(** ** Cross-origin headers *)
(* ================================================================== *)

Lemma same_name_refl (a : string) : Cors.same_name a a = true.
Proof. apply String.eqb_refl. Qed.

Lemma same_name_sym (a b : string) : Cors.same_name a b = Cors.same_name b a.
Proof. apply String.eqb_sym. Qed.

Lemma same_name_trans (a b c : string) :
  Cors.same_name a b = true -> Cors.same_name b c = Cors.same_name a c.
Proof.
  unfold Cors.same_name. intros H. apply String.eqb_eq in H. now rewrite H.
Qed.

Lemma getHeader_setHeader (n m v : string) (h : Cors.headers) :
  Cors.getHeader n (Cors.setHeader m v h)
  = if Cors.same_name m n then Some v else Cors.getHeader n h.
Proof.
  induction h as [|[n0 v0] rest IH]; cbn; [reflexivity|].
  destruct (Cors.same_name n0 m) eqn:E; cbn.
  - rewrite (same_name_trans n0 m n E).
    destruct (Cors.same_name n0 n); reflexivity.
  - rewrite IH. destruct (Cors.same_name n0 n) eqn:E2; [|reflexivity].
    assert (X : Cors.same_name m n = false).
    { rewrite same_name_sym, (same_name_trans n0 n m E2). exact E. }
    now rewrite X.
Qed.

Lemma spelled_setHeader (n v : string) (h : Cors.headers) :
  Cors.spelled n v (Cors.setHeader n v h) = true.
Proof.
  induction h as [|[n0 v0] rest IH]; cbn.
  - now rewrite same_name_refl, !String.eqb_refl.
  - destruct (Cors.same_name n0 n) eqn:E; cbn.
    + now rewrite same_name_refl, !String.eqb_refl.
    + now rewrite E.
Qed.

Lemma spelled_setHeader_other (n v m w : string) (h : Cors.headers) :
  Cors.same_name m n = false ->
  Cors.spelled n v h = true ->
  Cors.spelled n v (Cors.setHeader m w h) = true.
Proof.
  intros Hmn. induction h as [|[n0 v0] rest IH]; cbn; [discriminate|].
  destruct (Cors.same_name n0 n) eqn:E.
  - intros H.
    assert (X : Cors.same_name n0 m = false).
    { rewrite <- (same_name_trans n0 n m E), same_name_sym. exact Hmn. }
    rewrite X. cbn. now rewrite E.
  - intros H. destruct (Cors.same_name n0 m) eqn:F; cbn.
    + rewrite Hmn. cbn in H.
      (* the entry of [m] is replaced, that of [n] lies further on *)
      exact H.
    + rewrite E. now apply IH.
Qed.

Lemma setHeader_spelled (n v : string) (h : Cors.headers) :
  Cors.spelled n v h = true -> Cors.setHeader n v h = h.
Proof.
  induction h as [|[n0 v0] rest IH]; cbn; [discriminate|].
  destruct (Cors.same_name n0 n).
  - intros H. apply andb_true_iff in H as [H1 H2].
    apply String.eqb_eq in H1, H2. now subst.
  - intros H. now rewrite IH.
Qed.

Lemma spelled_getHeader (n v : string) (h : Cors.headers) :
  Cors.spelled n v h = true -> Cors.getHeader n h = Some v.
Proof.
  induction h as [|[n0 v0] rest IH]; cbn; [discriminate|].
  destruct (Cors.same_name n0 n); [|exact IH].
  intros H. apply andb_true_iff in H as [_ H].
  apply String.eqb_eq in H. now subst.
Qed.

Lemma array_includes_In (xs : list string) (x : string) :
  Cors.array_includes xs x = true <-> In x xs.
Proof.
  unfold Cors.array_includes. rewrite existsb_exists. split.
  - intros (y & Hy & E). apply String.eqb_eq in E. now subst.
  - intros H. exists x. split; [exact H | apply String.eqb_refl].
Qed.

Lemma echoed_spec (origin : option string) (o : string) :
  Cors.echoed origin = Some o <-> origin = Some o /\ In o Cors.ALLOWED_ORIGINS.
Proof.
  unfold Cors.echoed. destruct origin as [x|]; [|split; [discriminate | now intros [? _]]].
  destruct (Js.truthy x && Cors.array_includes Cors.ALLOWED_ORIGINS x)%bool eqn:E.
  - apply andb_true_iff in E as [_ E]. apply array_includes_In in E.
    split; [intros [= <-]; auto | intros [[= <-] _]; reflexivity].
  - split; [discriminate|]. intros [[= <-] Hin]. exfalso.
    pose proof (proj2 (array_includes_In _ _) Hin) as Hi.
    rewrite Hi, andb_true_r in E. apply truthy_false in E. subst x.
    cbn in Hin. intuition discriminate.
Qed.

(** Evaluation of the comparisons between the names the code writes. *)
Ltac eval_names :=
  repeat match goal with
         | |- context [Cors.same_name ?a ?b] =>
             let v := eval vm_compute in (Cors.same_name a b) in
             match v with
             | true => change (Cors.same_name a b) with true
             | false => change (Cors.same_name a b) with false
             end
         end.

(** [setCorsHeaders] never names an origin that is not on the list: on a
    response that has no such header yet, [Access-Control-Allow-Origin] is
    set exactly when the request's origin is one of the allowed origins,
    and then to that origin. *)
Theorem allow_origin_only_for_allowed
    (origin : option string) (h : Cors.headers) (o : string) :
  Cors.getHeader "Access-Control-Allow-Origin" h = None ->
  (Cors.getHeader "Access-Control-Allow-Origin" (Cors.setCorsHeaders origin h)
   = Some o
   <-> origin = Some o /\ In o Cors.ALLOWED_ORIGINS).
Proof.
  intros Hh. rewrite <- echoed_spec.
  unfold Cors.setCorsHeaders, Cors.echo_origin.
  rewrite !getHeader_setHeader. eval_names.
  destruct (Cors.echoed origin) as [x|].
  - rewrite getHeader_setHeader, same_name_refl. reflexivity.
  - rewrite Hh. reflexivity.
Qed.

Lemma allow_origin_only_for_allowed_witness :
  Cors.getHeader "Access-Control-Allow-Origin"
    (Cors.setCorsHeaders (Some "http://localhost:3000") [])
  = Some "http://localhost:3000".
Proof.
  apply (proj2 (allow_origin_only_for_allowed (Some "http://localhost:3000") []
                  "http://localhost:3000" eq_refl)).
  split; [reflexivity | now left].
Defined.

Lemma getHeader_same_name (a b : string) (h : Cors.headers) :
  Cors.same_name a b = true -> Cors.getHeader b h = Cors.getHeader a h.
Proof.
  intros E. induction h as [|[n v] rest IH]; cbn; [reflexivity|].
  rewrite (same_name_sym n b), (same_name_sym n a).
  rewrite <- (same_name_trans b a n) by (now rewrite same_name_sym).
  now rewrite IH.
Qed.

(** Header names being compared without regard to letter case: after
    [setCorsHeaders] the four fixed headers have their values, under
    whatever spelling they are asked for and whatever the response held
    before, under whatever spelling; a header whose name is none of the
    five, in any letter case, is not touched; and running the middleware a
    second time changes nothing. *)
Theorem setCorsHeaders_fixed_and_idempotent
    (origin : option string) (h : Cors.headers) :
  let h' := Cors.setCorsHeaders origin h in
  (forall name, Cors.same_name "Access-Control-Allow-Methods" name = true ->
     Cors.getHeader name h' = Some "GET,POST,OPTIONS") /\
  (forall name, Cors.same_name "Access-Control-Allow-Headers" name = true ->
     Cors.getHeader name h'
     = Some "Origin,Content-Type,Authorization,Accept,X-Requested-With") /\
  (forall name, Cors.same_name "Access-Control-Allow-Credentials" name = true ->
     Cors.getHeader name h' = Some "false") /\
  (forall name, Cors.same_name "Vary" name = true ->
     Cors.getHeader name h' = Some "Origin") /\
  (forall name,
     (forall n, In n ["Access-Control-Allow-Origin";
                      "Access-Control-Allow-Methods";
                      "Access-Control-Allow-Headers";
                      "Access-Control-Allow-Credentials"; "Vary"] ->
                Cors.same_name n name = false) ->
     Cors.getHeader name h' = Cors.getHeader name h) /\
  Cors.setCorsHeaders origin h' = h'.
Proof.
  cbv zeta.
  assert (M : Cors.spelled "Access-Control-Allow-Methods" "GET,POST,OPTIONS"
                (Cors.setCorsHeaders origin h) = true).
  { unfold Cors.setCorsHeaders.
    repeat (apply spelled_setHeader_other; [reflexivity|]).
    apply spelled_setHeader. }
  assert (A : Cors.spelled "Access-Control-Allow-Headers"
                "Origin,Content-Type,Authorization,Accept,X-Requested-With"
                (Cors.setCorsHeaders origin h) = true).
  { unfold Cors.setCorsHeaders.
    repeat (apply spelled_setHeader_other; [reflexivity|]).
    apply spelled_setHeader. }
  assert (C : Cors.spelled "Access-Control-Allow-Credentials" "false"
                (Cors.setCorsHeaders origin h) = true).
  { unfold Cors.setCorsHeaders.
    repeat (apply spelled_setHeader_other; [reflexivity|]).
    apply spelled_setHeader. }
  assert (V : Cors.spelled "Vary" "Origin" (Cors.setCorsHeaders origin h) = true).
  { unfold Cors.setCorsHeaders. apply spelled_setHeader. }
  repeat match goal with |- _ /\ _ => split end.
  - intros name E. rewrite (getHeader_same_name _ _ _ E).
    apply spelled_getHeader, M.
  - intros name E. rewrite (getHeader_same_name _ _ _ E).
    apply spelled_getHeader, A.
  - intros name E. rewrite (getHeader_same_name _ _ _ E).
    apply spelled_getHeader, C.
  - intros name E. rewrite (getHeader_same_name _ _ _ E).
    apply spelled_getHeader, V.
  - intros name Hn. unfold Cors.setCorsHeaders, Cors.echo_origin.
    rewrite !getHeader_setHeader.
    rewrite !Hn by (cbn; tauto).
    destruct (Cors.echoed origin); [|reflexivity].
    rewrite getHeader_setHeader. now rewrite Hn by (cbn; tauto).
  - assert (E : Cors.echo_origin origin (Cors.setCorsHeaders origin h)
                = Cors.setCorsHeaders origin h).
    { unfold Cors.echo_origin. destruct (Cors.echoed origin) as [o|] eqn:Eo;
        [|reflexivity].
      apply setHeader_spelled. unfold Cors.setCorsHeaders, Cors.echo_origin.
      rewrite Eo.
      repeat (apply spelled_setHeader_other; [reflexivity|]).
      apply spelled_setHeader. }
    unfold Cors.setCorsHeaders at 1. rewrite E.
    rewrite (setHeader_spelled _ _ _ M).
    rewrite (setHeader_spelled _ _ _ A).
    rewrite (setHeader_spelled _ _ _ C).
    now rewrite (setHeader_spelled _ _ _ V).
Qed.

Lemma setCorsHeaders_fixed_and_idempotent_witness :
  Cors.getHeader "Content-Type"
    (Cors.setCorsHeaders None [("Content-Type", "application/json")])
  = Some "application/json" /\
  Cors.getHeader "vary" (Cors.setCorsHeaders None [("vary", "Accept-Encoding")])
  = Some "Origin".
Proof.
  destruct (setCorsHeaders_fixed_and_idempotent None
              [("Content-Type", "application/json")])
    as (_ & _ & _ & _ & H & _).
  destruct (setCorsHeaders_fixed_and_idempotent None
              [("vary", "Accept-Encoding")])
    as (_ & _ & _ & K & _).
  split.
  - rewrite H; [reflexivity|].
    intros n Hn. cbn in Hn.
    repeat destruct Hn as [<- | Hn]; try reflexivity. contradiction.
  - apply K. reflexivity.
Defined.

(** The two tests on the origin agree: a request that names an origin is
    let through by the policy of the CORS middleware exactly when
    [setCorsHeaders] echoes that origin; a request without origin is let
    through and gets no echo; and the only refusal is the error
    [Not allowed by CORS]. *)
Theorem policy_agrees_with_echo (origin : option string) :
  (forall o, origin = Some o -> o <> "" ->
     (Cors.origin_policy origin = Cors.Allow <-> Cors.echoed origin = Some o)) /\
  (origin = None \/ origin = Some "" ->
     Cors.origin_policy origin = Cors.Allow /\ Cors.echoed origin = None) /\
  (forall message, Cors.origin_policy origin = Cors.Refuse message ->
     message = "Not allowed by CORS" /\ Cors.echoed origin = None).
Proof.
  split; [| split].
  - intros o -> Ho. apply truthy_true in Ho.
    unfold Cors.origin_policy, Cors.echoed. rewrite Ho. cbn [negb andb].
    destruct (Cors.array_includes Cors.ALLOWED_ORIGINS o);
      split; intros; congruence.
  - intros [-> | ->]; split; reflexivity.
  - intros message. unfold Cors.origin_policy, Cors.echoed.
    destruct origin as [o|]; [|discriminate].
    destruct (Js.truthy o); cbn [negb andb]; [|discriminate].
    destruct (Cors.array_includes Cors.ALLOWED_ORIGINS o); [discriminate|].
    now intros [= <-].
Qed.

Lemma policy_agrees_with_echo_witness :
  Cors.origin_policy (Some "https://evil.example") = Cors.Refuse "Not allowed by CORS" /\
  Cors.echoed (Some "https://evil.example") = None.
Proof.
  split; [reflexivity|].
  apply (proj2 (proj2 (policy_agrees_with_echo (Some "https://evil.example")))
           "Not allowed by CORS").
  reflexivity.
Defined.

Lemma or_else_nonempty (a b : string) : b <> "" -> Js.or_else a b <> "".
Proof.
  intros Hb. unfold Js.or_else. destruct (Js.truthy a) eqn:E; [|exact Hb].
  now apply truthy_true.
Qed.

(** No error answer has an empty message: neither those of the handler
    nor the one of the global error handler, which always has status 500. *)
Theorem error_messages_are_never_empty
    (rev : revision) (cfg : config) (w : world) (req : request) (d : disk) :
  (forall status message,
     response_of rev cfg w req d = Some (Json status message) -> message <> "") /\
  (forall err origin h,
     exists message,
       fst (Cors.error_handler err origin h) = Json 500 message /\
       message <> "").
Proof.
  split.
  - intros status message.
    handler_run; intros [= <- <-]; try discriminate.
    all: apply or_else_nonempty; discriminate.
  - intros err origin h. eexists. split; [reflexivity|].
    destruct err as [e|]; cbn; [apply or_else_nonempty|]; discriminate.
Qed.

Lemma error_messages_are_never_empty_witness :
  "Input Buffer is empty" <> "".
Proof.
  apply (proj1 (error_messages_are_never_empty Plain Sample.cfg Sample.fine
                  Sample.req_empty_file Sample.disk0) 500).
  reflexivity.
Defined.

(* ================================================================== *)
(** ** The version check *)
(* ================================================================== *)

Lemma split_lines_not_nil (s : string) : VersionCheck.split_lines s <> [].
Proof.
  induction s as [|c r IH]; cbn; [discriminate|].
  destruct (Ascii.eqb c VersionCheck.newline); [discriminate|].
  destruct (VersionCheck.split_lines r); discriminate.
Qed.

Lemma join_cons (x : string) (lines : list string) :
  lines <> [] ->
  VersionCheck.join_lines (x :: lines)
  = x ++ String VersionCheck.newline (VersionCheck.join_lines lines).
Proof. destruct lines; [now intros [] | reflexivity]. Qed.

(** Splitting into lines and joining them again gives the text back. *)
Lemma join_split (s : string) :
  VersionCheck.join_lines (VersionCheck.split_lines s) = s.
Proof.
  induction s as [|c r IH]; [reflexivity|].
  cbn [VersionCheck.split_lines].
  pose proof (split_lines_not_nil r) as N.
  destruct (Ascii.eqb c VersionCheck.newline) eqn:E.
  - apply Ascii.eqb_eq in E. subst c.
    rewrite join_cons by exact N. now rewrite IH.
  - destruct (VersionCheck.split_lines r) as [|l ls] eqn:S; [now elim N|].
    destruct ls as [|l' ls'].
    + cbn in IH |- *. now rewrite IH.
    + rewrite join_cons in IH |- * by discriminate.
      cbn [append]. now rewrite IH.
Qed.

Lemma join_firstn (n : nat) (lines : list string) :
  exists rest,
    VersionCheck.join_lines lines
    = VersionCheck.join_lines (firstn n lines) ++ rest.
Proof.
  revert n. induction lines as [|x l IH]; intros n.
  - exists "". now rewrite firstn_nil.
  - destruct n as [|n]; [eexists; reflexivity|].
    cbn [firstn]. destruct (IH n) as [rest Hr].
    destruct l as [|y l'].
    + rewrite firstn_nil. exists "". cbn. now rewrite append_nil_r.
    + destruct n as [|n'].
      * cbn [firstn VersionCheck.join_lines]. eexists. reflexivity.
      * cbn [firstn] in *.
        change (VersionCheck.join_lines (x :: y :: l'))
          with (x ++ String VersionCheck.newline (VersionCheck.join_lines (y :: l'))).
        change (VersionCheck.join_lines (x :: y :: firstn n' l'))
          with (x ++ String VersionCheck.newline
                       (VersionCheck.join_lines (y :: firstn n' l'))).
        rewrite Hr. exists rest. now rewrite append_assoc.
Qed.

Lemma split_lines_no_newline (s : string) :
  Forall (fun l => Js.all_chars
                     (fun c => negb (Ascii.eqb c VersionCheck.newline)) l = true)
         (VersionCheck.split_lines s).
Proof.
  induction s as [|c r IH]; cbn [VersionCheck.split_lines].
  - now constructor.
  - destruct (Ascii.eqb c VersionCheck.newline) eqn:E.
    + now constructor.
    + destruct (VersionCheck.split_lines r) as [|l ls].
      * constructor; [cbn; now rewrite E | constructor].
      * inversion IH as [|? ? Hl Hls]; subst.
        constructor; [cbn; now rewrite E, Hl | exact Hls].
Qed.

Lemma split_app_newline (x rest : string) :
  Js.all_chars (fun c => negb (Ascii.eqb c VersionCheck.newline)) x = true ->
  VersionCheck.split_lines (x ++ String VersionCheck.newline rest)
  = x :: VersionCheck.split_lines rest.
Proof.
  induction x as [|c r IH]; intros H.
  - reflexivity.
  - cbn in H. apply andb_true_iff in H as [Hc Hr].
    apply negb_true_iff in Hc.
    cbn [append VersionCheck.split_lines]. now rewrite Hc, IH.
Qed.

Lemma split_single (x : string) :
  Js.all_chars (fun c => negb (Ascii.eqb c VersionCheck.newline)) x = true ->
  VersionCheck.split_lines x = [x].
Proof.
  induction x as [|c r IH]; intros H; [reflexivity|].
  cbn in H. apply andb_true_iff in H as [Hc Hr].
  apply negb_true_iff in Hc.
  cbn [VersionCheck.split_lines]. now rewrite Hc, IH.
Qed.

Lemma split_join (lines : list string) :
  lines <> [] ->
  Forall (fun l => Js.all_chars
                     (fun c => negb (Ascii.eqb c VersionCheck.newline)) l = true)
         lines ->
  VersionCheck.split_lines (VersionCheck.join_lines lines) = lines.
Proof.
  induction lines as [|x l IH]; [now intros [] |].
  intros _ H. inversion H as [|? ? Hx Hl]; subst.
  destruct l as [|y l'].
  - now apply split_single.
  - rewrite join_cons by discriminate.
    rewrite split_app_newline by exact Hx.
    now rewrite IH by (discriminate || exact Hl).
Qed.

Lemma Forall_firstn_keep {A} (P : A -> Prop) (n : nat) (l : list A) :
  Forall P l -> Forall P (firstn n l).
Proof.
  revert n. induction l as [|x l IH]; intros n H.
  - now rewrite firstn_nil.
  - destruct n; [constructor|]. inversion H; subst. cbn. constructor; auto.
Qed.

Lemma or_else_empty (s : string) : Js.or_else s "" = s.
Proof. now destruct s. Qed.

(** The lines printed at start-up are the beginning of the engine's
    output: the output starts with them; they are the whole output when it
    has at most six lines; they are never more than six lines; and taking
    the top lines of the top lines changes nothing. *)
Theorem outLines_is_the_head (stdout : string) :
  let top := VersionCheck.outLines (Some stdout) in
  (exists rest, stdout = top ++ rest) /\
  ((length (VersionCheck.split_lines stdout) <= 6)%nat -> top = stdout) /\
  (length (VersionCheck.split_lines top) <= 6)%nat /\
  VersionCheck.outLines (Some top) = top.
Proof.
  cbv zeta. unfold VersionCheck.outLines. cbn [Js.opt_or_else].
  rewrite !or_else_empty.
  assert (S : VersionCheck.split_lines
                (VersionCheck.join_lines
                   (firstn 6 (VersionCheck.split_lines stdout)))
              = firstn 6 (VersionCheck.split_lines stdout)).
  { apply split_join.
    - pose proof (split_lines_not_nil stdout).
      destruct (VersionCheck.split_lines stdout); [congruence | discriminate].
    - apply Forall_firstn_keep, split_lines_no_newline. }
  repeat split.
  - destruct (join_firstn 6 (VersionCheck.split_lines stdout)) as [rest H].
    exists rest. now rewrite <- H, join_split.
  - intros H. rewrite firstn_all2 by exact H. apply join_split.
  - rewrite S. apply firstn_le_length.
  - rewrite S, firstn_firstn. reflexivity.
Qed.

Lemma outLines_is_the_head_witness :
  VersionCheck.outLines (Some "ffmpeg version 6.0") = "ffmpeg version 6.0".
Proof.
  apply (proj1 (proj2 (outLines_is_the_head "ffmpeg version 6.0"))).
  cbn. lia.
Defined.

Lemma matches_here_app (literal a b : string) :
  VersionCheck.matches_here literal a = true ->
  VersionCheck.matches_here literal (a ++ b) = true.
Proof.
  revert a. induction literal as [|p pr IH]; intros a; [reflexivity|].
  destruct a as [|c r]; cbn; [discriminate|].
  intros H. apply andb_true_iff in H as [Hc Hr]. now rewrite Hc, IH.
Qed.

Lemma occurs_app_l (literal a b : string) :
  VersionCheck.occurs literal a = true ->
  VersionCheck.occurs literal (a ++ b) = true.
Proof.
  induction a as [|c r IH]; cbn [VersionCheck.occurs append].
  - rewrite orb_false_r. intros H.
    destruct literal; [now destruct b | discriminate].
  - intros H. apply orb_true_iff in H as [H | H].
    + apply (matches_here_app _ (String c r) b) in H. cbn [append] in H.
      now rewrite H.
    + rewrite (IH H). apply orb_true_r.
Qed.

Lemma occurs_app_r (literal a b : string) :
  VersionCheck.occurs literal b = true ->
  VersionCheck.occurs literal (a ++ b) = true.
Proof.
  intros H. induction a as [|c r IH]; [exact H|].
  cbn [append VersionCheck.occurs]. rewrite IH. apply orb_true_r.
Qed.

Lemma matches_app_occurs (a b s : string) :
  VersionCheck.matches_here (a ++ b) s = true ->
  VersionCheck.occurs b s = true.
Proof.
  revert s. induction a as [|p a' IH]; intros s H.
  - cbn [append] in H. destruct s; cbn [VersionCheck.occurs]; now rewrite H.
  - destruct s as [|c r]; [discriminate|].
    cbn [append VersionCheck.matches_here] in H.
    apply andb_true_iff in H as [_ H].
    cbn [VersionCheck.occurs]. rewrite (IH r H). apply orb_true_r.
Qed.

(** The second alternative of the pattern adds nothing: the test is
    positive exactly when [freetype] occurs, in any letter case. *)
Lemma freetype_test_occurs (s : string) :
  VersionCheck.freetype_test s = VersionCheck.occurs "freetype" s.
Proof.
  induction s as [|c r IH]; [reflexivity|].
  cbn [VersionCheck.freetype_test]. rewrite IH.
  destruct (VersionCheck.matches_here "libfreetype" (String c r)) eqn:L.
  - rewrite orb_true_r. cbn [orb]. symmetry.
    apply (matches_app_occurs "lib" "freetype"). exact L.
  - rewrite orb_false_r. reflexivity.
Qed.

(** What the check prints.  When the engine could not be launched, a
    single warning.  Otherwise two lines, the second of which is the
    confirmation exactly when [freetype] occurs, in any letter case, in
    the output followed by the diagnostic output, and the warning that
    text drawing may fail otherwise.  In particular the confirmation is
    printed as soon as one of the two streams alone mentions it. *)
Theorem version_check_reports_freetype
    (rev : revision) (stdout stderr : string) :
  let confirmed :=
    Console LogLevel
      [match rev with
       | Plain => "ffmpeg includes freetype (drawtext should work)."
       | Verbose => "ffmpeg appears to include freetype (drawtext likely works)."
       end] in
  (forall e, VersionCheck.version_check rev (Some e) stdout stderr
             = [Console WarnLevel ["Could not run ffmpeg -version check"; e]]) /\
  length (VersionCheck.version_check rev None stdout stderr) = 2%nat /\
  (In confirmed (VersionCheck.version_check rev None stdout stderr)
   <-> VersionCheck.occurs "freetype" (stdout ++ stderr) = true) /\
  (VersionCheck.occurs "freetype" stdout = true \/
   VersionCheck.occurs "freetype" stderr = true ->
   In confirmed (VersionCheck.version_check rev None stdout stderr)).
Proof.
  cbv zeta.
  assert (K : In (Console LogLevel
                    [match rev with
                     | Plain => "ffmpeg includes freetype (drawtext should work)."
                     | Verbose =>
                         "ffmpeg appears to include freetype (drawtext likely works)."
                     end])
                 (VersionCheck.version_check rev None stdout stderr)
              <-> VersionCheck.occurs "freetype" (stdout ++ stderr) = true).
  { unfold VersionCheck.version_check. rewrite freetype_test_occurs.
    destruct (VersionCheck.occurs "freetype" (stdout ++ stderr)); cbn [In].
    - split; [reflexivity | intros _; right; left; reflexivity].
    - split; [|discriminate].
      intros [H | [H | []]]; destruct rev; discriminate. }
  repeat split.
  - apply K.
  - apply K.
  - intros [H | H]; apply K; [now apply occurs_app_l | now apply occurs_app_r].
Qed.

Lemma version_check_reports_freetype_witness :
  In (Console LogLevel ["ffmpeg includes freetype (drawtext should work)."])
     (VersionCheck.version_check Plain None
        "configuration: --enable-libFreeType" "").
Proof.
  apply (proj2 (proj2 (proj2 (version_check_reports_freetype Plain
           "configuration: --enable-libFreeType" "")))).
  left. reflexivity.
Defined.

Lemma other_paths_untouched_witness :
  In "/home/app/notes.txt"
     (disk_after Plain Site.cfg Sample.fine Site.req_ok Site.disk0).
Proof.
  apply (other_paths_untouched Plain Site.cfg Sample.fine Site.req_ok Site.disk0
           "/home/app/notes.txt").
  - reflexivity.
  - intros f [= <-]. reflexivity.
  - vm_compute. tauto.
Defined.

Lemma sanitize_empty_iff_witness : sanitize "   " = "".
Proof. apply (proj2 (sanitize_empty_iff "   ")). reflexivity. Defined.

(* ================================================================== *)
(** ** The end of the transfer, and requests side by side *)
(* ================================================================== *)

(** Whether the transfer of the video succeeds or fails makes no
    difference to the answer nor to the disk left behind: the workspace
    and the upload are removed either way. *)
Theorem cleanup_ignores_transfer_failure
    (rev : revision) (cfg : config) (w : world) (req : request) (d : disk)
    (e : option string) :
  let w' := {| uuid := uuid w;
               fs_copy := fs_copy w;
               fs_readFile := fs_readFile w;
               sharp_decode := sharp_decode w;
               sharp_write := sharp_write w;
               ffmpeg_run := ffmpeg_run w;
               download_error := e |} in
  response_of rev cfg w' req d = response_of rev cfg w req d /\
  disk_after rev cfg w' req d = disk_after rev cfg w req d.
Proof.
  cbv zeta. split.
  - handler_unfold.
    cbn [uuid fs_copy fs_readFile sharp_decode sharp_write ffmpeg_run
         download_error].
    destruct rev; cbn [verbose]; repeat handler_step; reflexivity.
  - handler_unfold.
    cbn [uuid fs_copy fs_readFile sharp_decode sharp_write ffmpeg_run
         download_error].
    destruct rev; cbn [verbose]; repeat handler_step; reflexivity.
Qed.

Lemma prefix_iff (a p : string) :
  String.prefix a p = true <-> exists t, p = a ++ t.
Proof.
  revert p. induction a as [|c r IH]; intros p.
  - split; [intros _; now exists p | now destruct p].
  - destruct p as [|c' r']; cbn.
    + split; [discriminate | intros [t H]; discriminate].
    + destruct (ascii_dec c c') as [<- | N].
      * rewrite IH. split; intros [t H]; exists t; [now rewrite H | now injection H].
      * split; [discriminate | intros [t H]; injection H as E _; now elim N].
Qed.

Lemma app_same_length (a b x y : string) :
  a ++ x = b ++ y -> String.length a = String.length b -> a = b.
Proof.
  revert b. induction a as [|c r IH]; intros [|c' r'] H L; try discriminate.
  - reflexivity.
  - cbn in H, L. injection H as -> H. injection L as L.
    now rewrite (IH r' H L).
Qed.

Lemma app_cancel_l (a x y : string) : a ++ x = a ++ y -> x = y.
Proof. induction a as [|c r IH]; cbn; [auto | intros [= H]; auto]. Qed.

Lemma inside_decompose (cfg : config) (dir p : string) :
  Fs.inside cfg dir p = true -> exists t, p = dir ++ t.
Proof.
  unfold Fs.inside. intros H. apply orb_true_iff in H as [H | H].
  - apply String.eqb_eq in H. exists "". now rewrite append_nil_r.
  - apply prefix_iff in H as [t ->]. exists (sep cfg ++ t).
    now rewrite append_assoc.
Qed.

(** Workspaces of distinct identifiers share no path. *)
Lemma distinct_workspaces_apart
    (cfg : config) (w1 w2 : world) (p : string) :
  uuid w1 <> uuid w2 ->
  String.length (uuid w1) = String.length (uuid w2) ->
  Fs.inside cfg (workDir_of cfg w2) p = true ->
  Fs.inside cfg (workDir_of cfg w1) p = false.
Proof.
  intros Hne Hlen H2.
  destruct (Fs.inside cfg (workDir_of cfg w1) p) eqn:H1; [|reflexivity].
  exfalso. apply Hne.
  apply inside_decompose in H1 as [t1 E1].
  apply inside_decompose in H2 as [t2 E2].
  unfold workDir_of, path_join in *. rewrite E1 in E2.
  rewrite !append_assoc in E2.
  apply app_cancel_l, app_cancel_l in E2.
  now apply (app_same_length _ _ _ _ E2).
Qed.

(** Two requests whose identifiers differ (and have the same length, as
    UUIDs have) work in disjoint workspaces: nothing lies inside both. *)
Theorem workspaces_are_disjoint
    (cfg : config) (w1 w2 : world) (p : string) :
  uuid w1 <> uuid w2 ->
  String.length (uuid w1) = String.length (uuid w2) ->
  Fs.inside cfg (workDir_of cfg w2) p = true ->
  Fs.inside cfg (workDir_of cfg w1) p = false.
Proof. exact (distinct_workspaces_apart cfg w1 w2 p). Qed.

(** So a request leaves alone whatever another request, running at the
    same time, keeps in its own workspace. *)
Theorem requests_do_not_interfere
    (rev : revision) (cfg : config) (w1 w2 : world) (req : request) (d : disk)
    (p : string) :
  uuid w1 <> uuid w2 ->
  String.length (uuid w1) = String.length (uuid w2) ->
  Fs.inside cfg (workDir_of cfg w2) p = true ->
  (forall f, file req = Some f -> Fs.inside cfg (up_path f) p = false) ->
  (In p (disk_after rev cfg w1 req d) <-> In p d).
Proof.
  intros Hne Hlen Hp Hu.
  apply paths_elsewhere_kept; [|exact Hu].
  now apply (distinct_workspaces_apart cfg w1 w2).
Qed.

Lemma workspaces_are_disjoint_witness :
  Fs.inside Site.cfg (workDir_of Site.cfg Sample.fine)
    "/tmp/work/9c0d17aa/overlay_600.png" = false.
Proof.
  apply (workspaces_are_disjoint Site.cfg Sample.fine Site.neighbour);
    [discriminate | reflexivity | reflexivity].
Defined.

Lemma requests_do_not_interfere_witness :
  In "/tmp/work/9c0d17aa/overlay_600.png"
     (disk_after Verbose Site.cfg Sample.fine Site.req_ok Site.disk_shared).
Proof.
  apply (requests_do_not_interfere Verbose Site.cfg Sample.fine Site.neighbour
           Site.req_ok Site.disk_shared "/tmp/work/9c0d17aa/overlay_600.png").
  - discriminate.
  - reflexivity.
  - reflexivity.
  - intros f [= <-]. reflexivity.
  - vm_compute. tauto.
Defined.
